(** * Verification of the retrieval-fusion and agent-controller core

    Shallow embedding of
    - [src/retrieval/retriever.py]   ([DocumentRetriever])
    - [src/eval/relevance_grader.py] ([RelevanceGrader.grade])
    - [src/agent/graph.py]           ([AgentGraph] nodes and edges)
    - [src/agent/research.py]        ([ResearchRefiner.generate_queries])

    Python strings are modelled as ASCII [string]s. The Reciprocal Rank
    Fusion scores of hybrid retrieval are computed, added and compared as
    IEEE binary64 doubles (Rocq's primitive [float]), as Python computes
    them; similarity scores and the similarity threshold, which are only
    compared, are modelled as exact rationals [Q]. External collaborators
    (LLM calls, vector store, BM25 index, web search) are function
    parameters; a collaborator that may raise returns an [Exc]. *)

From Stdlib Require Import List String Ascii Bool Arith Lia ZArith QArith.
From Stdlib Require Import Sorting.Sorted Sorting.Permutation.
From Stdlib Require PrimFloat SpecFloat FloatOps FloatAxioms Uint63.
Import ListNotations.
Import PrimFloat.PrimFloatNotations.
Open Scope string_scope.

(** Decimal literals such as [1.0%float] denote binary64 doubles. *)
Number Notation PrimFloat.float PrimFloat.parser PrimFloat.printer : float_scope.

(** ** Python values shared by all modules *)

(** A call that may raise: [Ok v] or [Raise msg]. *)
Inductive Exc (A : Type) : Type :=
| Ok (v : A)
| Raise (msg : string).
Arguments Ok {A} v.
Arguments Raise {A} msg.

(** [langchain_core.documents.Document]. *)
Record Document := mkDocument {
  page_content : string;
  metadata : list (string * string)
}.

(** ** ASCII string helpers (Python [str] methods) *)
Module PyStr.

(** [c.lower()] on one ASCII character. *)
Definition lower_char (c : ascii) : ascii :=
  let n := nat_of_ascii c in
  if ((65 <=? n) && (n <=? 90))%nat then ascii_of_nat (n + 32)%nat else c.

(** [s.lower()]. *)
Fixpoint lower (s : string) : string :=
  match s with
  | EmptyString => EmptyString
  | String c s' => String (lower_char c) (lower s')
  end.

(** [c.isspace()] on ASCII: 9..13, 28..31 and space. *)
Definition is_space (c : ascii) : bool :=
  let n := nat_of_ascii c in
  (((9 <=? n) && (n <=? 13)) || ((28 <=? n) && (n <=? 32)))%nat.

(** [s.lstrip(chars)] with an explicit predicate on characters. *)
Fixpoint lstrip_by (p : ascii -> bool) (s : string) : string :=
  match s with
  | EmptyString => EmptyString
  | String c s' => if p c then lstrip_by p s' else s
  end.

Definition rev_str (s : string) : string :=
  string_of_list_ascii (rev (list_ascii_of_string s)).

(** [s.strip()]. *)
Definition strip (s : string) : string :=
  rev_str (lstrip_by is_space (rev_str (lstrip_by is_space s))).

(** Membership of a character in the argument of [lstrip(chars)]. *)
Fixpoint in_chars (chars : string) (c : ascii) : bool :=
  match chars with
  | EmptyString => false
  | String d r => Ascii.eqb c d || in_chars r c
  end.

(** [s.lstrip(chars)]: strips every leading character in the set [chars]. *)
Definition lstrip (chars s : string) : string := lstrip_by (in_chars chars) s.

Fixpoint prefixb (p s : string) : bool :=
  match p, s with
  | EmptyString, _ => true
  | String _ _, EmptyString => false
  | String a p', String b s' => Ascii.eqb a b && prefixb p' s'
  end.

(** [p in s] (substring test). *)
Fixpoint contains (p s : string) : bool :=
  prefixb p s ||
  match s with
  | EmptyString => false
  | String _ s' => contains p s'
  end.

(** [s.split(sep)] for a one-character separator. *)
Fixpoint split_on (sep : ascii) (s : string) : list string :=
  match s with
  | EmptyString => [EmptyString]
  | String c s' =>
      if Ascii.eqb c sep then EmptyString :: split_on sep s'
      else match split_on sep s' with
           | [] => [String c EmptyString]
           | w :: ws => String c w :: ws
           end
  end.

Definition newline : ascii := ascii_of_nat 10%nat.

End PyStr.
Import PyStr.

(** ** [AgentGraph.check_hallucination] and [decide_after_check] *)
Module Hallucination.

Definition refusal_indicators : list string := [
  "i don't have enough information";
  "context does not contain";
  "information is not available";
  "cannot provide an answer";
  "cannot answer";
  "answer based on the context provided"
].

(** Returns the [hallucination_grade] together with the number of calls
    made to the judge collaborator [check_groundedness]
    ([HallucinationGrader.check_groundedness], fail-open inside). *)
Definition check_hallucination
    (check_groundedness : string -> list Document -> bool)
    (answer : string) (documents : list Document) : string * nat :=
  match documents with
  | [] => ("grounded", 0%nat)
  | _ :: _ =>
      if existsb (fun indicator => contains indicator (lower answer))
                 refusal_indicators
      then ("hallucinated", 0%nat)
      else if check_groundedness answer documents
           then ("grounded", 1%nat)
           else ("hallucinated", 1%nat)
  end.

End Hallucination.
Import Hallucination.

(** ** [RelevanceGrader.grade] *)
Module Relevance.

(** [llm question docs] is [self.llm.invoke(messages)].content, where the
    messages are built from [question] and the first 500 characters of
    the first three documents. *)
Definition grade (llm : string -> list Document -> Exc string)
    (question : string) (documents : list Document) : string :=
  match documents with
  | [] => "irrelevant"
  | _ :: _ =>
      match llm question (firstn 3 documents) with
      | Ok content =>
          if contains "yes" (lower (strip content)) then "relevant"
          else "irrelevant"
      | Raise _ => "relevant"
      end
  end.

End Relevance.

(** ** [AgentGraph]: the LangGraph workflow of [src/agent/graph.py] *)
Module Graph.

Inductive Node :=
| Retrieve | GradeDocuments | Generate | TransformQuery
| PlanResearch | WebSearch | SynthesizeResearch | CheckHallucination.

(** Target of an edge: a node or [END]. *)
Inductive Target := Go (n : Node) | End.

(** [AgentState]; keys read with [state.get(key, default)] may be absent
    and are options. [messages], [context], [sources] and [context_used]
    are written but never read by the control flow and are left out. *)
Record AgentState := mkState {
  documents : list Document;
  question : string;
  retry_count : option nat;
  answer : string;
  research_queries : option (list string);
  is_web : option bool;
  hallucination_grade : option string
}.

(** The input [{"question": q}] of [agent.app.invoke]. *)
Definition init_state (q : string) : AgentState :=
  mkState [] q None "" None None None.

(** The collaborators of [AgentGraph]. *)
Record Env := mkEnv {
  retriever_retrieve : string -> list Document;
  relevance_llm : string -> list Document -> Exc string;
  generate_answer : string -> list Document -> string;
  check_groundedness : string -> list Document -> bool;
  generate_queries : string -> list string;
  web_search_tool : list string -> list Document;
  synthesize : string -> list Document -> string
}.

Definition get_retry (st : AgentState) : nat :=
  match retry_count st with Some r => r | None => 0%nat end.

Definition set_documents st d :=
  mkState d (question st) (retry_count st) (answer st)
          (research_queries st) (is_web st) (hallucination_grade st).
Definition set_retry st r :=
  mkState (documents st) (question st) (Some r) (answer st)
          (research_queries st) (is_web st) (hallucination_grade st).
Definition set_question st q :=
  mkState (documents st) q (retry_count st) (answer st)
          (research_queries st) (is_web st) (hallucination_grade st).
Definition set_answer st a :=
  mkState (documents st) (question st) (retry_count st) a
          (research_queries st) (is_web st) (hallucination_grade st).
Definition set_queries st qs :=
  mkState (documents st) (question st) (retry_count st) (answer st)
          (Some qs) (is_web st) (hallucination_grade st).
Definition set_web st d :=
  mkState d (question st) (retry_count st) (answer st)
          (research_queries st) (Some true) (hallucination_grade st).
Definition set_grade st g :=
  mkState (documents st) (question st) (retry_count st) (answer st)
          (research_queries st) (is_web st) (Some g).

Section Nodes.
Variable env : Env.

Definition retrieve (st : AgentState) : AgentState :=
  set_documents st (retriever_retrieve env (question st)).

Definition grade_documents (st : AgentState) : AgentState :=
  let retry := get_retry st in
  let g := Relevance.grade (relevance_llm env) (question st) (documents st) in
  if String.eqb g "irrelevant" then set_retry (set_documents st []) retry
  else set_retry st retry.

Definition max_retries : nat := 1.

Definition decide_to_generate (st : AgentState) : Node :=
  match documents st with
  | [] => if (get_retry st <? max_retries)%nat then TransformQuery else PlanResearch
  | _ :: _ => Generate
  end.

Definition broadening : string := " overview details".

Definition transform_query (st : AgentState) : AgentState :=
  set_retry (set_question st (question st ++ broadening)) (S (get_retry st)).

Definition generate (st : AgentState) : AgentState :=
  set_answer st (generate_answer env (question st) (documents st)).

Definition plan_research (st : AgentState) : AgentState :=
  set_queries st (generate_queries env (question st)).

(** [state.get("research_queries") or [state["question"]]]. *)
Definition web_search (st : AgentState) : AgentState :=
  let queries := match research_queries st with
                 | Some (q :: qs) => q :: qs
                 | _ => [question st]
                 end in
  set_web st (web_search_tool env queries).

Definition synthesize_research (st : AgentState) : AgentState :=
  set_answer st (synthesize env (question st) (documents st)).

Definition check_hallucination_node (st : AgentState) : AgentState :=
  set_grade st (fst (check_hallucination (check_groundedness env)
                                         (answer st) (documents st))).

Definition decide_after_check (st : AgentState) : Target :=
  let grade := match hallucination_grade st with
               | Some g => g | None => "grounded" end in
  if String.eqb grade "grounded" then End
  else if match is_web st with Some b => b | None => false end then End
  else Go PlanResearch.

(** One node execution followed by its outgoing edge. *)
Definition step (n : Node) (st : AgentState) : AgentState * Target :=
  match n with
  | Retrieve => (retrieve st, Go GradeDocuments)
  | GradeDocuments =>
      let st' := grade_documents st in (st', Go (decide_to_generate st'))
  | TransformQuery => (transform_query st, Go Retrieve)
  | Generate => (generate st, Go CheckHallucination)
  | CheckHallucination =>
      let st' := check_hallucination_node st in (st', decide_after_check st')
  | PlanResearch => (plan_research st, Go WebSearch)
  | WebSearch => (web_search st, Go SynthesizeResearch)
  | SynthesizeResearch => (synthesize_research st, End)
  end.

(** Executes at most [fuel] nodes; returns the executed nodes in order and
    the final state. *)
Fixpoint run (fuel : nat) (n : Node) (st : AgentState)
    : list Node * AgentState :=
  match fuel with
  | O => ([], st)
  | S f =>
      let (st', t) := step n st in
      match t with
      | End => ([n], st')
      | Go n' => let (tr, st'') := run f n' st' in (n :: tr, st'')
      end
  end.

End Nodes.

End Graph.

(** ** [DocumentRetriever] ([src/retrieval/retriever.py]) *)
Module Retriever.

(** A Python [dict] with string keys: association list in insertion order. *)
Definition Dict (V : Type) := list (string * V).

Fixpoint dict_get {V} (d : Dict V) (key : string) : option V :=
  match d with
  | [] => None
  | (k, v) :: t => if String.eqb k key then Some v else dict_get t key
  end.

(** [d[key] = v]: replaces in place, or appends a new key. *)
Fixpoint dict_set {V} (d : Dict V) (key : string) (v : V) : Dict V :=
  match d with
  | [] => [(key, v)]
  | (k, w) :: t => if String.eqb k key then (k, v) :: t else (k, w) :: dict_set t key v
  end.

Definition dict_mem {V} (d : Dict V) (key : string) : bool :=
  match dict_get d key with Some _ => true | None => false end.

(** [if key not in scores: scores[key] = 0.0] then [scores[key] += v],
    in double precision. *)
Fixpoint add_score (scores : Dict PrimFloat.float) (key : string) (v : PrimFloat.float)
    : Dict PrimFloat.float :=
  match scores with
  | [] => [(key, (0.0 + v)%float)]
  | (k, s) :: t =>
      if String.eqb k key then (k, (s + v)%float) :: t else (k, s) :: add_score t key v
  end.

(** [enumerate(l)]. *)
Fixpoint enumerate_from {A} (i : nat) (l : list A) : list (nat * A) :=
  match l with
  | [] => []
  | x :: t => (i, x) :: enumerate_from (S i) t
  end.
Definition enumerate {A} (l : list A) := enumerate_from 0 l.

Definition c : nat := 60.

(** [float(n)] for a Python [int] [0 <= n < 2^63] (list indices are below
    [sys.maxsize]): the conversion rounds to nearest, like Python's. *)
Definition py_float_of_nat (n : nat) : PrimFloat.float :=
  PrimFloat.of_uint63 (Uint63.of_Z (Z.of_nat n)).

(** [1.0 / (c + rank + 1)]: the [int] divisor is converted to a double and
    the quotient rounded. *)
Definition rrf_term (rank : nat) : PrimFloat.float :=
  (1.0 / py_float_of_nat (c + rank + 1))%float.

(** Body of the BM25 loop. *)
Definition bm25_step (acc : Dict PrimFloat.float * Dict Document) (rd : nat * Document)
    : Dict PrimFloat.float * Dict Document :=
  let '(scores, doc_map) := acc in
  let '(rank, doc) := rd in
  let key := page_content doc in
  (add_score scores key (rrf_term rank), dict_set doc_map key doc).

(** Body of the semantic loop. *)
Definition vector_step (acc : Dict PrimFloat.float * Dict Document) (rd : nat * Document)
    : Dict PrimFloat.float * Dict Document :=
  let '(scores, doc_map) := acc in
  let '(rank, doc) := rd in
  let key := page_content doc in
  let doc_map := if dict_mem doc_map key then doc_map else dict_set doc_map key doc in
  (add_score scores key (rrf_term rank), doc_map).

(** The two loops of [_retrieve_hybrid]: [(scores, doc_map)]. *)
Definition fuse (bm25_docs vector_results : list Document)
    : Dict PrimFloat.float * Dict Document :=
  fold_left vector_step (enumerate vector_results)
            (fold_left bm25_step (enumerate bm25_docs) ([], [])).

(** [sorted(items, key=score, reverse=True)]: Python's sort is stable, also
    with [reverse=True], so an item goes after every earlier item whose
    score is not smaller; scores are compared with the double [<]. *)
Fixpoint insert_desc (x : string * PrimFloat.float) (l : list (string * PrimFloat.float))
    : list (string * PrimFloat.float) :=
  match l with
  | [] => [x]
  | y :: t => if (snd y <? snd x)%float then x :: y :: t else y :: insert_desc x t
  end.

Definition sort_desc (l : list (string * PrimFloat.float)) : list (string * PrimFloat.float) :=
  fold_left (fun acc x => insert_desc x acc) l [].

(** [l[:k]] for an integer [k] (negative bounds count from the end). *)
Definition py_take {A} (k : Z) (l : list A) : list A :=
  if (0 <=? k)%Z then firstn (Z.to_nat k) l
  else firstn (List.length l - Z.to_nat (- k))%nat l.

(** [[f(x) for x in l]] where [f] may raise. *)
Fixpoint map_exc {A B} (f : A -> Exc B) (l : list A) : Exc (list B) :=
  match l with
  | [] => Ok []
  | x :: t =>
      match f x with
      | Raise e => Raise e
      | Ok y => match map_exc f t with Raise e => Raise e | Ok ys => Ok (y :: ys) end
      end
  end.

(** [doc_map[content]]: raises [KeyError] on a missing key. *)
Definition dict_index (d : Dict Document) (key : string) : Exc Document :=
  match dict_get d key with Some v => Ok v | None => Raise "KeyError" end.

(** Vector store collaborators. *)
Record VectorStore := mkVectorStore {
  similarity_search : string -> Z -> Exc (list Document);
  similarity_search_with_score : string -> Z -> Exc (list (Document * Q))
}.

Record DocumentRetriever := mkRetriever {
  vectorstore : VectorStore;
  top_k : Z;
  similarity_threshold : Q;
  (** [self.bm25_retriever.invoke], or [None] *)
  bm25_retriever : option (string -> Exc (list Document))
}.

(** [top_k or int(os.getenv("RETRIEVAL_TOP_K", "5"))] and
    [similarity_threshold or float(os.getenv("SIMILARITY_THRESHOLD", "0.7"))];
    the environment variables are given already parsed. *)
Definition init_top_k (arg : option Z) (env : option Z) : Z :=
  let dflt := match env with Some v => v | None => 5%Z end in
  match arg with Some t => if (t =? 0)%Z then dflt else t | None => dflt end.

Definition init_threshold (arg : option Q) (env : option Q) : Q :=
  let dflt := match env with Some v => v | None => 7 # 10 end in
  match arg with Some t => if Qeq_bool t 0 then dflt else t | None => dflt end.

Definition retrieve_semantic (r : DocumentRetriever) (query : string) (k : Z)
    : Exc (list Document) :=
  match similarity_search_with_score (vectorstore r) query k with
  | Raise e => Raise e
  | Ok results =>
      Ok (map fst (filter (fun '(_, score) => Qle_bool (similarity_threshold r) score)
                          results))
  end.

Definition retrieve_hybrid (r : DocumentRetriever)
    (bm25_invoke : string -> Exc (list Document)) (query : string) (k : Z)
    : Exc (list Document) :=
  match bm25_invoke query with
  | Raise e => Raise e
  | Ok bm25_docs =>
      match similarity_search (vectorstore r) query k with
      | Raise e => Raise e
      | Ok vector_results =>
          let '(scores, doc_map) := fuse bm25_docs vector_results in
          let sorted_docs := sort_desc scores in
          map_exc (fun '(content, _) => dict_index doc_map content)
                  (py_take k sorted_docs)
      end
  end.

(** [k = k or self.top_k]. *)
Definition effective_k (r : DocumentRetriever) (k : option Z) : Z :=
  match k with Some k' => if (k' =? 0)%Z then top_k r else k' | None => top_k r end.

Definition retrieve (r : DocumentRetriever) (query : string) (k : option Z)
    : Exc (list Document) :=
  let k := effective_k r k in
  match bm25_retriever r with
  | Some b => retrieve_hybrid r b query k
  | None => retrieve_semantic r query k
  end.

End Retriever.

(** ** [ResearchRefiner.generate_queries] ([src/agent/research.py]) *)
Module Research.

(** [llm question] is [self.llm.invoke(messages)].content. *)
Definition generate_queries (llm : string -> Exc string) (question : string)
    : list string :=
  match llm question with
  | Raise _ => [question]
  | Ok response =>
      let content := strip response in
      let queries :=
        map (fun q => lstrip "123. " (lstrip "- " (strip q)))
            (filter (fun q => negb (String.eqb (strip q) "")) (split_on newline content)) in
      firstn 3 queries
  end.

End Research.
Import Retriever.

(** ** [DocumentRetriever.__init__] and [retrieve_with_scores] *)
Module RetrieverInit.
Import Retriever.

(** [retrieve_with_scores]: scored vector search with the similarity floor,
    in every mode. *)
Definition retrieve_with_scores (r : DocumentRetriever) (query : string) (k : option Z)
    : Exc (list (Document * Q)) :=
  let k := effective_k r k in
  match similarity_search_with_score (vectorstore r) query k with
  | Raise e => Raise e
  | Ok results =>
      Ok (filter (fun '(_, score) => Qle_bool (similarity_threshold r) score) results)
  end.

(** [__init__]: [bm25_build docs k] is [BM25Retriever.from_documents(docs)]
    with [.k = k] (it may raise), [as_retriever] is the call
    [self.vectorstore.get_vectorstore().as_retriever(...)] (it may raise);
    either failure leaves [bm25_retriever = None]. [env_top_k] and
    [env_threshold] are the parsed environment variables, if set. *)
Definition make_retriever (vs : VectorStore) (documents : list Document)
    (top_k_arg : option Z) (threshold_arg : option Q)
    (env_top_k : option Z) (env_threshold : option Q)
    (bm25_build : list Document -> Z -> Exc (string -> Exc (list Document)))
    (as_retriever : Exc unit) : DocumentRetriever :=
  let tk := init_top_k top_k_arg env_top_k in
  let th := init_threshold threshold_arg env_threshold in
  let bm25 :=
    match documents with
    | [] => None
    | _ :: _ =>
        match bm25_build documents tk with
        | Raise _ => None
        | Ok b => match as_retriever with Ok _ => Some b | Raise _ => None end
        end
    end in
  mkRetriever vs tk th bm25.

End RetrieverInit.

(** ** [HallucinationGrader.check_groundedness] ([src/eval/hallucination_grader.py]) *)
Module Groundedness.

(** [llm answer docs] is [self.llm.invoke(messages)].content for the prompt
    built from the answer and the documents' text. *)
Definition check_groundedness (llm : string -> list Document -> Exc string)
    (answer : string) (context_docs : list Document) : bool :=
  match llm answer context_docs with
  | Ok content => contains "yes" (lower (strip content))
  | Raise _ => true
  end.

End Groundedness.

(** ** [WebSearchTool] ([src/tools/web_search.py]) and the web documents of
    [AgentGraph.web_search] / [AgentGraph.synthesize_research] *)
Module WebTool.
Import Retriever.

Definition SDict := Dict string.

(** [d.get(key, default)]. *)
Definition dget (d : SDict) (key dflt : string) : string :=
  match dict_get d key with Some v => v | None => dflt end.

(** [d[key]]: raises [KeyError] on a missing key. *)
Definition dindex (d : SDict) (key : string) : Exc string :=
  match dict_get d key with Some v => Ok v | None => Raise "KeyError" end.

(** Argument of [search]: [Union[str, List[str]]]. *)
Inductive QueryArg := QStr (q : string) | QList (qs : list string).

(** The DuckDuckGo client: [available] is [DDGS is not None], [enter] is
    [DDGS().__enter__()], and [text q limit] is what iterating
    [ddgs.text(q, max_results=limit)] yields, with the exception it raises
    at the end, if any. *)
Record DDGSClient := mkDDGS {
  available : bool;
  enter : Exc unit;
  text : string -> nat -> list SDict * option string
}.

Definition tag_result (q : string) (r : SDict) : SDict :=
  [("title", dget r "title" ""); ("href", dget r "href" "");
   ("body", dget r "body" ""); ("query", q)].

(** The [for q in queries] loop; [None] when an exception escapes it. *)
Fixpoint search_loop (text : string -> nat -> list SDict * option string)
    (limit : nat) (qs : list string) (all_results : list SDict)
    : option (list SDict) :=
  match qs with
  | [] => Some all_results
  | q :: t =>
      let '(items, err) := text q limit in
      let all_results := (all_results ++ map (tag_result q) items)%list in
      match err with
      | Some _ => None
      | None => search_loop text limit t all_results
      end
  end.

Definition search (client : DDGSClient) (max_results : nat) (query : QueryArg)
    : list SDict :=
  if negb (available client) then []
  else
    let queries := match query with QStr q => [q] | QList qs => qs end in
    match enter client with
    | Raise _ => []
    | Ok _ =>
        let limit := if (1 <? List.length queries)%nat then 3%nat else max_results in
        match search_loop (text client) limit queries [] with
        | Some all_results => all_results
        | None => []
        end
    end.

(** Decimal rendering of a [nat] (the [{i}] of an f-string). *)
Definition digit_char (d : nat) : ascii := ascii_of_nat (48 + d).

Fixpoint digits_aux (fuel n : nat) (acc : string) : string :=
  match fuel with
  | O => acc
  | S f =>
      let acc := String (digit_char (n mod 10)) acc in
      if (n <? 10)%nat then acc else digits_aux f (n / 10) acc
  end.

Definition str_of_nat (n : nat) : string := digits_aux (S n) n "".

Definition nl : string := String newline "".

(** [sep.join(parts)]. *)
Fixpoint join (sep : string) (parts : list string) : string :=
  match parts with
  | [] => ""
  | [p] => p
  | p :: t => p ++ sep ++ join sep t
  end.

Definition format_entry (i : nat) (res : SDict) : Exc string :=
  let q_info := if dict_mem res "query"
                then " [Query: " ++ dget res "query" "Main" ++ "]" else "" in
  match dindex res "title", dindex res "href", dindex res "body" with
  | Ok title, Ok href, Ok body =>
      Ok ("[Web " ++ str_of_nat i ++ "]" ++ q_info ++ " " ++ title ++ nl ++
          "URL: " ++ href ++ nl ++ "Snippet: " ++ body ++ nl)
  | Raise e, _, _ => Raise e
  | _, Raise e, _ => Raise e
  | _, _, Raise e => Raise e
  end.

Definition format_results (results : list SDict) : Exc string :=
  match results with
  | [] => Ok "No web search results found."
  | _ :: _ =>
      match map_exc (fun ir => format_entry (fst ir) (snd ir))
                    (enumerate_from 1 results) with
      | Ok formatted => Ok (join nl formatted)
      | Raise e => Raise e
      end
  end.

(** The conversion loop of [AgentGraph.web_search]. *)
Definition web_document (res : SDict) : Exc Document :=
  match dindex res "title", dindex res "body", dindex res "href" with
  | Ok title, Ok body, Ok href =>
      Ok (mkDocument (title ++ nl ++ body)
            [("filename", "Web Search"); ("page", href); ("type", "web");
             ("query", dget res "query" "Main")])
  | Raise e, _, _ => Raise e
  | _, Raise e, _ => Raise e
  | _, _, Raise e => Raise e
  end.

Definition web_documents (results : list SDict) : Exc (list Document) :=
  map_exc web_document results.

(** [lst[i]]: raises [IndexError] out of range. *)
Definition py_index {A} (l : list A) (i : nat) : Exc A :=
  match nth_error l i with Some x => Ok x | None => Raise "IndexError" end.

(** One element of the list comprehension of
    [AgentGraph.synthesize_research]. *)
Definition synth_entry (d : Document) : Exc SDict :=
  let parts := split_on newline (page_content d) in
  match py_index parts 0, py_index parts 1, dindex (metadata d) "page" with
  | Ok title, Ok body, Ok href =>
      Ok [("title", title); ("body", body); ("href", href);
          ("query", dget (metadata d) "query" "")]
  | Raise e, _, _ => Raise e
  | _, Raise e, _ => Raise e
  | _, _, Raise e => Raise e
  end.

Definition synth_entries (docs : list Document) : Exc (list SDict) :=
  map_exc synth_entry docs.

End WebTool.

(** ** [DocumentRetriever.format_context] *)
Module ContextFormat.
Import Retriever WebTool.

Definition format_part (i : nat) (doc : Document) : string :=
  "[Source " ++ str_of_nat i ++ "] " ++ dget (metadata doc) "source" "Unknown" ++
  " (Page " ++ dget (metadata doc) "page" "N/A" ++ "):" ++ nl ++ page_content doc ++ nl.

Definition format_context (documents : list Document) : string :=
  match documents with
  | [] => "No relevant information found."
  | _ :: _ => join nl (map (fun ip => format_part (fst ip) (snd ip)) (enumerate_from 1 documents))
  end.

End ContextFormat.

(** ** Reachable states of the [AgentGraph] workflow *)
Module GraphReach.
Import Graph.

(** [reach env n st n' st']: from node [n] in state [st] the workflow gets to
    execute node [n'] in state [st']. *)
Inductive reach (env : Env) (n : Node) (st : AgentState) : Node -> AgentState -> Prop :=
| reach_here : reach env n st n st
| reach_next n1 st1 st2 n2 :
    reach env n st n1 st1 -> step env n1 st1 = (st2, Go n2) -> reach env n st n2 st2.

End GraphReach.

(** ** Ranked Merge as the spec states it (exact sums [fused_score_spec]),
    and its double-precision form ([fused_score], [fused_before]) for
    comparison with [fuse] and [sort_desc] *)
Module RankSpec.

(** Sum of [1/(60 + r)] over the 1-based ranks [r] at which [key] occurs
    in [l] (ranks start at [r]). *)
Fixpoint rank_contrib (r : nat) (l : list Document) (key : string) : Q :=
  match l with
  | [] => 0
  | d :: t =>
      (if String.eqb (page_content d) key
       then 1 / inject_Z (Z.of_nat (60 + r)) else 0)
      + rank_contrib (S r) t key
  end.

(** Fused score of a chunk content over the keyword and vector lists. *)
Definition fused_score_spec (l1 l2 : list Document) (key : string) : Q :=
  rank_contrib 1 l1 key + rank_contrib 1 l2 key.

(** Position of the first occurrence of [key] in [l]. *)
Fixpoint first_index (key : string) (l : list string) : nat :=
  match l with
  | [] => 0
  | x :: t => if String.eqb x key then 0 else S (first_index key t)
  end.

(** The double terms [1.0 / float(60 + r)] for the 1-based ranks [r] at
    which [key] occurs in [l] (ranks start at [r]), in list order. *)
Fixpoint rank_terms (r : nat) (l : list Document) (key : string) : list PrimFloat.float :=
  match l with
  | [] => []
  | d :: t =>
      if String.eqb (page_content d) key
      then (1.0 / py_float_of_nat (60 + r))%float :: rank_terms (S r) t key
      else rank_terms (S r) t key
  end.

(** Fused double score of a chunk content: [0.0] plus its keyword terms,
    then its vector terms, added left to right with rounding. *)
Definition fused_score (l1 l2 : list Document) (key : string) : PrimFloat.float :=
  fold_left PrimFloat.add (rank_terms 1 l1 key ++ rank_terms 1 l2 key) 0.0%float.

(** [a] comes before [b]: a higher double score, or an equal double score
    and first seen earlier in [cs]. *)
Definition fused_before (cs : list string) (a b : string * PrimFloat.float) : Prop :=
  (snd b <? snd a)%float = true \/
  ((snd a =? snd b)%float = true /\ (first_index (fst a) cs < first_index (fst b) cs)%nat).

End RankSpec.
Import RankSpec.

(** ** Which chunk [doc_map] keeps for a content *)
Module DocChoice.

(** The last document of [l] whose content is [key]. *)
Fixpoint last_with (key : string) (l : list Document) : option Document :=
  match l with
  | [] => None
  | d :: t =>
      match last_with key t with
      | Some x => Some x
      | None => if String.eqb (page_content d) key then Some d else None
      end
  end.

(** The first document of [l] whose content is [key]. *)
Fixpoint first_with (key : string) (l : list Document) : option Document :=
  match l with
  | [] => None
  | d :: t => if String.eqb (page_content d) key then Some d else first_with key t
  end.

End DocChoice.

(** * Theorems *)

Module HallucinationFacts.
Import Graph.

Lemma existsb_refusal (answer : string) :
  (exists ind, In ind refusal_indicators /\ contains ind (lower answer) = true) ->
  existsb (fun indicator => contains indicator (lower answer)) refusal_indicators = true.
Proof. intros H. apply existsb_exists. exact H. Qed.

(** C10: with an empty evidence list the hallucination check answers
    [grounded] before the refusal scan, whatever the answer text (also one
    containing a refusal phrase) and without calling the judge. *)
Theorem check_hallucination_empty_evidence :
  forall (judge : string -> list Document -> bool) (answer : string),
    check_hallucination judge answer [] = ("grounded", 0%nat).
Proof. reflexivity. Qed.

(** C5: after the groundedness check returns [hallucinated], the controller
    goes to [End] when the web fallback flag is already set, and to
    [PlanResearch] when it is not. *)
Theorem hallucinated_after_web_ends :
  forall (env : Env) (st : AgentState),
    fst (check_hallucination (check_groundedness env) (answer st) (documents st))
      = "hallucinated" ->
    (is_web st = Some true -> snd (step env CheckHallucination st) = End) /\
    (match is_web st with Some b => b | None => false end = false ->
       snd (step env CheckHallucination st) = Go PlanResearch).
Proof.
  intros env st Hh. simpl. unfold decide_after_check, check_hallucination_node.
  simpl. rewrite Hh. simpl. split.
  - intros Hw. rewrite Hw. reflexivity.
  - intros Hw. destruct (is_web st) as [[|]|]; simpl in *;
      try discriminate; reflexivity.
Qed.

Lemma hallucinated_after_web_ends_witness :
  let env := mkEnv (fun _ => []) (fun _ _ => Ok "yes") (fun _ _ => "x")
                   (fun _ _ => false) (fun q => [q]) (fun _ => [])
                   (fun _ _ => "") in
  let st := mkState [mkDocument "d" []] "q" (Some 1%nat) "an answer" None
                    (Some true) None in
  snd (step env CheckHallucination st) = End.
Proof.
  intros env st.
  apply (proj1 (hallucinated_after_web_ends env st eq_refl)). reflexivity.
Defined.

End HallucinationFacts.

Module RelevanceFacts.
Import Relevance.

(** C3 (counterexample): an ambiguous judge answer ("maybe") on non-empty
    evidence is graded [irrelevant], not [relevant]. *)
Lemma ambiguous_judge_irrelevant_cex :
  grade (fun _ _ => Ok "maybe") "What was revenue?" [mkDocument "Revenue was 5B" []]
  = "irrelevant".
Proof. reflexivity. Qed.

(** C3 (amended): on non-empty evidence the grader answers [irrelevant]
    exactly when the judge returns a response whose stripped, lowercased
    text does not contain "yes"; a judge error gives [relevant]. *)
Theorem grade_irrelevant_iff :
  forall llm question documents,
    documents <> [] ->
    (grade llm question documents = "irrelevant" <->
     exists content, llm question (firstn 3 documents) = Ok content /\
                     contains "yes" (lower (strip content)) = false) /\
    (forall e, llm question (firstn 3 documents) = Raise e ->
               grade llm question documents = "relevant").
Proof.
  intros llm question documents Hne.
  destruct documents as [|d ds]; [contradiction|].
  unfold grade. split.
  - destruct (llm question (firstn 3 (d :: ds))) as [content|e].
    + split.
      * intros H. exists content. split; [reflexivity|].
        destruct (contains "yes" (lower (strip content))); [discriminate|reflexivity].
      * intros [c' [Hc Hy]]. injection Hc as <-. rewrite Hy. reflexivity.
    + split; [discriminate|]. intros [c' [Hc _]]. discriminate.
  - intros e He. rewrite He. reflexivity.
Qed.

Lemma grade_irrelevant_iff_witness :
  grade (fun _ _ => Ok "no") "q" [mkDocument "d" []] = "irrelevant".
Proof.
  apply (proj1 (grade_irrelevant_iff (fun _ _ => Ok "no") "q" [mkDocument "d" []]
                  ltac:(discriminate))).
  exists "no". split; reflexivity.
Defined.

End RelevanceFacts.

Module GraphFacts.
Import Graph.

Lemma grade_documents_clears :
  forall env st,
    documents st = [] \/
    Relevance.grade (relevance_llm env) (question st) (documents st) = "irrelevant" ->
    grade_documents env st = set_retry (set_documents st []) (get_retry st).
Proof.
  intros env st H. unfold grade_documents.
  assert (Hg : Relevance.grade (relevance_llm env) (question st) (documents st)
               = "irrelevant").
  { destruct H as [H|H]; [rewrite H; reflexivity | exact H]. }
  rewrite Hg. reflexivity.
Qed.

(** C4: from [{"question": q0}], when both retrievals (for [q0] and for the
    broadened question) give empty or irrelevant-graded evidence, the
    executed nodes are Retrieve, GradeDocuments, TransformQuery, Retrieve,
    GradeDocuments, PlanResearch, then WebSearch, SynthesizeResearch and
    END: TransformQuery is entered once. Every TransformQuery appends the
    fixed phrase and increments [retry_count]. *)
Theorem retry_bound_trace :
  forall (env : Env) (q0 : string) (fuel : nat),
    (8 <= fuel)%nat ->
    (forall q, q = q0 \/ q = q0 ++ broadening ->
       retriever_retrieve env q = [] \/
       Relevance.grade (relevance_llm env) q (retriever_retrieve env q)
         = "irrelevant") ->
    (exists st,
       run env fuel Retrieve (init_state q0) =
         ([Retrieve; GradeDocuments; TransformQuery; Retrieve; GradeDocuments;
           PlanResearch; WebSearch; SynthesizeResearch], st) /\
       question st = q0 ++ broadening /\ retry_count st = Some 1%nat /\
       is_web st = Some true) /\
    (forall st, question (transform_query st) = question st ++ broadening /\
                get_retry (transform_query st) = S (get_retry st)).
Proof.
  intros env q0 fuel Hf Hret. split.
  2:{ intros st. split; reflexivity. }
  do 8 (destruct fuel as [|fuel]; [lia|]).
  set (st0 := init_state q0).
  (* Retrieve, GradeDocuments *)
  set (st1 := retrieve env st0).
  assert (E2 : grade_documents env st1 = set_retry (set_documents st1 []) 0%nat).
  { apply grade_documents_clears. apply Hret. left. reflexivity. }
  set (st2 := set_retry (set_documents st1 []) 0%nat) in E2.
  assert (D2 : decide_to_generate st2 = TransformQuery) by reflexivity.
  set (st3 := transform_query st2).
  set (st4 := retrieve env st3).
  assert (E5 : grade_documents env st4 = set_retry (set_documents st4 []) 1%nat).
  { apply grade_documents_clears. apply Hret. right. reflexivity. }
  set (st5 := set_retry (set_documents st4 []) 1%nat) in E5.
  assert (D5 : decide_to_generate st5 = PlanResearch) by reflexivity.
  cbn -[retrieve grade_documents decide_to_generate transform_query].
  fold st0. change (retrieve env st0) with st1. rewrite E2, D2.
  cbn -[retrieve grade_documents decide_to_generate transform_query].
  fold st3. change (retrieve env st3) with st4. rewrite E5, D5.
  cbn -[retrieve grade_documents decide_to_generate transform_query].
  eexists. split; [reflexivity|]. repeat split; reflexivity.
Qed.

Lemma retry_bound_trace_witness :
  let env := mkEnv (fun _ => []) (fun _ _ => Ok "yes") (fun _ _ => "x")
                   (fun _ _ => true) (fun q => [q]) (fun _ => [])
                   (fun _ _ => "report") in
  exists st,
    run env 8 Retrieve (init_state "What was total revenue in Q4?") =
      ([Retrieve; GradeDocuments; TransformQuery; Retrieve; GradeDocuments;
        PlanResearch; WebSearch; SynthesizeResearch], st) /\
    question st = "What was total revenue in Q4?" ++ broadening /\
    retry_count st = Some 1%nat /\ is_web st = Some true.
Proof.
  intros env.
  apply (proj1 (retry_bound_trace env "What was total revenue in Q4?" 8
                  ltac:(lia) (fun q _ => or_introl eq_refl))).
Defined.

End GraphFacts.

Module ResearchFacts.
Import Research.

(** C9 (code_bug): [lstrip("123. ")] strips a character set, not a list
    marker: a reply line "2023 Adobe revenue", which has no list marker,
    comes back as "023 Adobe revenue". *)
Theorem generate_queries_strips_leading_digit :
  generate_queries (fun _ => Ok "2023 Adobe revenue") "Adobe revenue?"
  = ["023 Adobe revenue"].
Proof. reflexivity. Qed.

End ResearchFacts.

(** ** Doubles: non-negative values, their order *)
Module FloatFacts.
Import SpecFloat.

Definition nn_sf (x : spec_float) : Prop :=
  match x with
  | S754_zero false | S754_infinity false | S754_finite false _ _ => True
  | _ => False
  end.

Definition nn (x : PrimFloat.float) : Prop := nn_sf (FloatOps.Prim2SF x).

Definition key_sf (x : spec_float) : Z * (Z * Z) :=
  match x with
  | S754_finite _ m e => (1%Z, (e, Zpos m))
  | S754_infinity _ => (2%Z, (0%Z, 0%Z))
  | _ => (0%Z, (0%Z, 0%Z))
  end.

Definition lex (a b : Z * (Z * Z)) : comparison :=
  match Z.compare (fst a) (fst b) with
  | Eq => match Z.compare (fst (snd a)) (fst (snd b)) with
          | Eq => Z.compare (snd (snd a)) (snd (snd b))
          | c => c end
  | c => c end.

Lemma shr_1_nonneg r : (0 <= shr_m r)%Z -> (0 <= shr_m (shr_1 r))%Z.
Proof.
  destruct r as [m rr s]; simpl; intros H.
  destruct m as [|p|p]; [simpl; lia| |lia].
  destruct p; simpl; lia.
Qed.

Lemma iter_shr_1_nonneg p r : (0 <= shr_m r)%Z -> (0 <= shr_m (iter_pos shr_1 p r))%Z.
Proof.
  revert r; induction p; intros r H; simpl; auto using shr_1_nonneg.
Qed.

Lemma shr_fexp_nonneg prec emax m e l :
  (0 <= m)%Z -> (0 <= shr_m (fst (shr_fexp prec emax m e l)))%Z.
Proof.
  intros H. unfold shr_fexp, shr.
  assert (H0 : (0 <= shr_m (shr_record_of_loc m l))%Z)
    by (destruct l as [|[]]; simpl; exact H).
  destruct (_ - e)%Z; simpl; auto using iter_shr_1_nonneg.
Qed.

Lemma round_nearest_even_nonneg m l : (0 <= m)%Z -> (0 <= round_nearest_even m l)%Z.
Proof.
  intros H; destruct l as [|[]]; simpl; try lia.
  destruct (Z.even m); lia.
Qed.

Lemma round_aux_nn prec emax m e l : (0 <= m)%Z -> nn_sf (binary_round_aux prec emax false m e l).
Proof.
  intros H. unfold binary_round_aux.
  pose proof (shr_fexp_nonneg prec emax m e l H) as H1.
  destruct (shr_fexp prec emax m e l) as [r1 e1] eqn:E1; simpl in H1.
  pose proof (shr_fexp_nonneg prec emax (round_nearest_even (shr_m r1) (loc_of_shr_record r1)) e1 loc_Exact
               (round_nearest_even_nonneg _ _ H1)) as H2.
  destruct (shr_fexp prec emax _ e1 loc_Exact) as [r2 e2]; simpl in H2.
  destruct (shr_m r2); simpl; try lia; auto.
  destruct (Z.leb _ _); simpl; auto.
Qed.

Lemma binary_normalize_nn prec emax m e : (0 <= m)%Z -> nn_sf (binary_normalize prec emax m e false).
Proof.
  intros H; destruct m as [|p|p]; simpl; [exact I| |lia].
  unfold binary_round. destruct (shl_align _ _ _); apply round_aux_nn; lia.
Qed.

Lemma add_nn x y : nn x -> nn y -> nn (x + y)%float.
Proof.
  unfold nn; rewrite FloatAxioms.add_spec; unfold FloatAxioms.SF64add.
  destruct (FloatOps.Prim2SF x) as [[]|[]| |[]]; try contradiction;
  destruct (FloatOps.Prim2SF y) as [[]|[]| |[]]; try contradiction; intros _ _; simpl; auto.
  unfold binary_round. destruct (shl_align _ _ _); apply round_aux_nn; lia.
Qed.

Lemma div_core_nonneg prec emax m1 e1 m2 e2 :
  (0 <= fst (fst (SFdiv_core_binary prec emax (Zpos m1) e1 (Zpos m2) e2)))%Z.
Proof.
  unfold SFdiv_core_binary.
  match goal with |- context [Z.div_eucl ?a ?b] =>
    assert (Hq : (0 <= fst (Z.div_eucl a b))%Z);
    [ change (fst (Z.div_eucl a b)) with (a / b)%Z; apply Z.div_pos; [|lia]
    | destruct (Z.div_eucl a b); exact Hq ] end.
  destruct (_ - _ - _)%Z; try lia. apply Z.shiftl_nonneg; lia.
Qed.

Lemma of_nat_nn n : nn (py_float_of_nat n).
Proof.
  unfold nn, py_float_of_nat. rewrite FloatAxioms.of_uint63_spec.
  apply binary_normalize_nn. apply Uint63.to_Z_bounded.
Qed.

Lemma one_div_nn y : nn y -> nn (1.0 / y)%float.
Proof.
  unfold nn; rewrite FloatAxioms.div_spec; unfold FloatAxioms.SF64div.
  change (FloatOps.Prim2SF 1.0) with (S754_finite false 4503599627370496 (-52)).
  destruct (FloatOps.Prim2SF y) as [[]|[]| |[]]; try contradiction; intros _; simpl; auto.
  pose proof (div_core_nonneg FloatOps.prec FloatOps.emax 4503599627370496 (-52) m e) as H.
  destruct (SFdiv_core_binary _ _ _ _ _ _) as [[q ez] lz]; simpl in H.
  apply round_aux_nn; exact H.
Qed.

Lemma rrf_term_nn r : nn (rrf_term r).
Proof. apply one_div_nn, of_nat_nn. Qed.

Lemma zero_nn : nn 0.0%float.
Proof. exact I. Qed.

Lemma compare_nn a b : nn_sf a -> nn_sf b -> SFcompare a b = Some (lex (key_sf a) (key_sf b)).
Proof.
  destruct a as [[]|[]| |[] ma ea]; try contradiction;
  destruct b as [[]|[]| |[] mb eb]; try contradiction; intros _ _; simpl; auto.
Qed.

Lemma ltb_nn x y : nn x -> nn y ->
  (x <? y)%float = true <-> lex (key_sf (FloatOps.Prim2SF x)) (key_sf (FloatOps.Prim2SF y)) = Lt.
Proof.
  intros Hx Hy. rewrite FloatAxioms.ltb_spec. unfold SFltb.
  rewrite (compare_nn _ _ Hx Hy). destruct lex; split; congruence.
Qed.

Lemma eqb_nn x y : nn x -> nn y ->
  (x =? y)%float = true <-> lex (key_sf (FloatOps.Prim2SF x)) (key_sf (FloatOps.Prim2SF y)) = Eq.
Proof.
  intros Hx Hy. rewrite FloatAxioms.eqb_spec. unfold SFeqb.
  rewrite (compare_nn _ _ Hx Hy). destruct lex; split; congruence.
Qed.

Definition lex_lt (a b : Z * (Z * Z)) : Prop :=
  (fst a < fst b \/ (fst a = fst b /\ (fst (snd a) < fst (snd b) \/
   (fst (snd a) = fst (snd b) /\ snd (snd a) < snd (snd b)))))%Z.

Lemma lex_Lt a b : lex a b = Lt <-> lex_lt a b.
Proof.
  destruct a as [a1 [a2 a3]], b as [b1 [b2 b3]]; unfold lex, lex_lt; simpl.
  destruct (Z.compare_spec a1 b1); [|split; [lia|reflexivity]|split; [discriminate|lia]].
  destruct (Z.compare_spec a2 b2); [|split; [lia|reflexivity]|split; [discriminate|lia]].
  destruct (Z.compare_spec a3 b3); split; (discriminate || lia || reflexivity).
Qed.

Lemma lex_Eq a b : lex a b = Eq <-> a = b.
Proof.
  destruct a as [a1 [a2 a3]], b as [b1 [b2 b3]]; unfold lex; simpl.
  destruct (Z.compare_spec a1 b1); [|split; [discriminate|intros E; inversion E; lia]..].
  destruct (Z.compare_spec a2 b2); [|split; [discriminate|intros E; inversion E; lia]..].
  destruct (Z.compare_spec a3 b3); split; (discriminate || congruence || (intros E; inversion E; lia)).
Qed.

Lemma lex_total a b : lex a b = Lt \/ a = b \/ lex b a = Lt.
Proof.
  rewrite !lex_Lt. destruct a as [a1 [a2 a3]], b as [b1 [b2 b3]]; unfold lex_lt; simpl.
  destruct (Z.lt_trichotomy a1 b1) as [|[|]]; [tauto| |tauto]; subst.
  destruct (Z.lt_trichotomy a2 b2) as [|[|]]; [tauto| |tauto]; subst.
  destruct (Z.lt_trichotomy a3 b3) as [|[|]]; [tauto| |tauto]; subst. tauto.
Qed.

Lemma lex_lt_trans a b c : lex a b = Lt -> lex b c = Lt -> lex a c = Lt.
Proof. rewrite !lex_Lt; unfold lex_lt; lia. Qed.

Lemma lex_lt_irrefl a : lex a a <> Lt.
Proof. rewrite lex_Lt; unfold lex_lt; lia. Qed.


(** The order of non-negative doubles, through [key_sf]. *)
Definition fkey (x : PrimFloat.float) : Z * (Z * Z) := key_sf (FloatOps.Prim2SF x).

Lemma ltb_fkey x y : nn x -> nn y -> (x <? y)%float = true <-> lex_lt (fkey x) (fkey y).
Proof. intros Hx Hy. rewrite (ltb_nn x y Hx Hy). apply lex_Lt. Qed.

Lemma eqb_fkey x y : nn x -> nn y -> (x =? y)%float = true <-> fkey x = fkey y.
Proof. intros Hx Hy. rewrite (eqb_nn x y Hx Hy). apply lex_Eq. Qed.

Lemma ltb_false_cases x y : nn x -> nn y -> (x <? y)%float = false ->
  (y <? x)%float = true \/ (x =? y)%float = true.
Proof.
  intros Hx Hy H. rewrite (ltb_fkey y x Hy Hx), (eqb_fkey x y Hx Hy).
  destruct (lex_total (fkey x) (fkey y)) as [E|[E|E]].
  - apply lex_Lt, (ltb_fkey x y Hx Hy) in E. congruence.
  - right. exact E.
  - left. apply lex_Lt. exact E.
Qed.

Lemma le_lt_trans_f x y z : nn x -> nn y -> nn z ->
  ((z <? y)%float = true \/ (y =? z)%float = true) -> (y <? x)%float = true ->
  (z <? x)%float = true.
Proof.
  intros Hx Hy Hz Hzy Hyx. apply (ltb_fkey z x Hz Hx).
  apply (ltb_fkey y x Hy Hx) in Hyx.
  destruct Hzy as [Hzy|Hzy].
  - apply (ltb_fkey z y Hz Hy) in Hzy. unfold lex_lt in *; lia.
  - apply (eqb_fkey y z Hy Hz) in Hzy. rewrite <- Hzy. exact Hyx.
Qed.

End FloatFacts.

Module FusionFacts.
Local Open Scope list_scope.

(** *** Generic list lemmas *)

Lemma fold_left_inv {A B} (P : A -> Prop) (f : A -> B -> A) (xs : list B) (a : A) :
  (forall acc x, In x xs -> P acc -> P (f acc x)) -> P a -> P (fold_left f xs a).
Proof.
  revert a. induction xs as [|x xs IH]; intros a Hstep Ha; simpl; [exact Ha|].
  apply IH; [intros acc y Hy; apply Hstep; right; exact Hy|].
  apply Hstep; [left; reflexivity | exact Ha].
Qed.

Lemma SS_app_last {A} (R : A -> A -> Prop) (l : list A) (k : A) :
  StronglySorted R l -> (forall x, In x l -> R x k) -> StronglySorted R (l ++ [k]).
Proof.
  induction l as [|y l IH]; intros Hs Hk; simpl.
  - constructor; constructor.
  - apply StronglySorted_inv in Hs as [Hs Hf]. constructor.
    + apply IH; [exact Hs | intros x Hx; apply Hk; right; exact Hx].
    + apply Forall_app. split; [exact Hf|].
      constructor; [apply Hk; left; reflexivity | constructor].
Qed.

Lemma SS_ext {A} (R R' : A -> A -> Prop) (l : list A) :
  (forall a b, In a l -> In b l -> R a b -> R' a b) ->
  StronglySorted R l -> StronglySorted R' l.
Proof.
  induction l as [|x l IH]; intros H Hs; [constructor|].
  apply StronglySorted_inv in Hs as [Hs Hf]. constructor.
  - apply IH; [intros a b Ha Hb; apply H; right; assumption | exact Hs].
  - rewrite Forall_forall in *. intros y Hy. apply H;
      [left; reflexivity | right; exact Hy | apply Hf; exact Hy].
Qed.

Lemma SS_map {A B} (R : B -> B -> Prop) (f : A -> B) (l : list A) :
  StronglySorted R (map f l) -> StronglySorted (fun a b => R (f a) (f b)) l.
Proof.
  induction l as [|x l IH]; simpl; intros Hs; [constructor|].
  apply StronglySorted_inv in Hs as [Hs Hf]. constructor; [apply IH; exact Hs|].
  rewrite Forall_forall in *. intros y Hy. apply Hf. apply in_map. exact Hy.
Qed.

(** *** [first_index] *)

Lemma first_index_app_in (x : string) (ks l : list string) :
  In x ks -> first_index x (ks ++ l) = first_index x ks.
Proof.
  induction ks as [|y ks IH]; simpl; intros H; [contradiction|].
  destruct (String.eqb_spec y x); [reflexivity|].
  destruct H as [H|H]; [congruence|]. rewrite IH; auto.
Qed.

Lemma first_index_lt (x : string) (ks : list string) :
  In x ks -> (first_index x ks < List.length ks)%nat.
Proof.
  induction ks as [|y ks IH]; simpl; intros H; [contradiction|].
  destruct (String.eqb_spec y x); [lia|].
  destruct H as [H|H]; [congruence|]. specialize (IH H). lia.
Qed.

Lemma first_index_last (x : string) (ks : list string) :
  ~ In x ks -> first_index x (ks ++ [x]) = List.length ks.
Proof.
  induction ks as [|y ks IH]; simpl; intros H.
  - rewrite String.eqb_refl. reflexivity.
  - destruct (String.eqb_spec y x); [exfalso; apply H; left; assumption|].
    rewrite IH; [reflexivity|]. intros Hin; apply H; right; exact Hin.
Qed.

(** *** The [scores] dictionary *)

Definition add_pair (sc : Dict PrimFloat.float) (p : string * PrimFloat.float) : Dict PrimFloat.float := add_score sc (fst p) (snd p).

Lemma add_score_keys_in (sc : Dict PrimFloat.float) (k : string) (v : PrimFloat.float) :
  In k (map fst sc) -> map fst (add_score sc k v) = map fst sc.
Proof.
  induction sc as [|[k' s] t IH]; simpl; intros H; [contradiction|].
  destruct (String.eqb_spec k' k); simpl; [reflexivity|].
  destruct H as [H|H]; [congruence|]. rewrite IH; auto.
Qed.

Lemma add_score_keys_new (sc : Dict PrimFloat.float) (k : string) (v : PrimFloat.float) :
  ~ In k (map fst sc) -> map fst (add_score sc k v) = map fst sc ++ [k].
Proof.
  induction sc as [|[k' s] t IH]; simpl; intros H; [reflexivity|].
  destruct (String.eqb_spec k' k); [exfalso; apply H; left; assumption|].
  simpl. rewrite IH; [reflexivity|]. intros Hin; apply H; right; exact Hin.
Qed.

(** Invariant of the score loop after the keys [ks]: the dictionary holds
    exactly the keys of [ks], once each, in first-seen order. *)
Definition keys_inv (sc : Dict PrimFloat.float) (ks : list string) : Prop :=
  (forall x, In x (map fst sc) <-> In x ks) /\ NoDup (map fst sc) /\
  StronglySorted (fun a b => (first_index a ks < first_index b ks)%nat) (map fst sc).

Lemma keys_inv_step (sc : Dict PrimFloat.float) (ks : list string) (p : string * PrimFloat.float) :
  keys_inv sc ks -> keys_inv (add_pair sc p) (ks ++ [fst p]).
Proof.
  destruct p as [k v]. unfold add_pair, keys_inv. simpl.
  intros [Hin [Hnd Hss]].
  assert (Hext : forall a b, In a (map fst sc) -> In b (map fst sc) ->
            (first_index a ks < first_index b ks)%nat ->
            (first_index a (ks ++ [k]) < first_index b (ks ++ [k]))%nat).
  { intros a b Ha Hb Hab. apply Hin in Ha, Hb.
    rewrite !first_index_app_in by assumption. exact Hab. }
  destruct (in_dec string_dec k (map fst sc)) as [Hk|Hk].
  - rewrite add_score_keys_in by exact Hk. repeat split.
    + intros Hx. apply in_or_app. left. apply Hin. exact Hx.
    + intros Hx. apply in_app_or in Hx as [Hx|[Hx|[]]]; [apply Hin; exact Hx|].
      subst. exact Hk.
    + exact Hnd.
    + eapply SS_ext; [exact Hext | exact Hss].
  - rewrite add_score_keys_new by exact Hk. repeat split.
    + intros Hx. apply in_app_or in Hx as [Hx|[Hx|[]]];
        apply in_or_app; [left; apply Hin; exact Hx | right; left; exact Hx].
    + intros Hx. apply in_app_or in Hx as [Hx|[Hx|[]]];
        apply in_or_app; [left; apply Hin; exact Hx | right; left; exact Hx].
    + apply NoDup_app; [exact Hnd | constructor; [intros []|constructor] |].
      intros x Hx [Hy|[]]. subst. contradiction.
    + apply SS_app_last; [eapply SS_ext; [exact Hext | exact Hss]|].
      intros x Hx. assert (Hks : In k ks -> False) by (intros H; apply Hk, Hin, H).
      rewrite first_index_last by exact Hks.
      assert (Hxk : In x ks) by (apply Hin; exact Hx).
      rewrite first_index_app_in by exact Hxk. apply first_index_lt. exact Hxk.
Qed.

Lemma keys_inv_fold (ps : list (string * PrimFloat.float)) :
  keys_inv (fold_left add_pair ps []) (map fst ps).
Proof.
  induction ps as [|p ps IH] using rev_ind.
  - repeat split; simpl; try tauto; constructor.
  - rewrite fold_left_app, map_app. simpl. apply keys_inv_step. exact IH.
Qed.

(** *** Scores: each key accumulates its contributions *)

(** [scores[key]], reading an absent key as [0.0]. *)
Definition fget (sc : Dict PrimFloat.float) (key : string) : PrimFloat.float :=
  match dict_get sc key with Some s => s | None => 0.0%float end.

(** The contributions to [key] in a list of (key, term) pairs, in order. *)
Definition terms_for (ps : list (string * PrimFloat.float)) (key : string)
    : list PrimFloat.float :=
  map snd (filter (fun p => String.eqb (fst p) key) ps).

Lemma fget_add_score (sc : Dict PrimFloat.float) (k key : string) (v : PrimFloat.float) :
  fget (add_score sc k v) key = if String.eqb k key then (fget sc key + v)%float else fget sc key.
Proof.
  unfold fget. induction sc as [|[k' s] t IH]; simpl.
  - destruct (String.eqb k key); reflexivity.
  - destruct (String.eqb_spec k' k) as [->|Hne]; simpl.
    + destruct (String.eqb k key); reflexivity.
    + destruct (String.eqb_spec k' key) as [->|Hne'].
      * destruct (String.eqb_spec k key); [congruence | reflexivity].
      * exact IH.
Qed.

Lemma fget_in (sc : Dict PrimFloat.float) (key : string) (s : PrimFloat.float) :
  NoDup (map fst sc) -> In (key, s) sc -> fget sc key = s.
Proof.
  unfold fget. induction sc as [|[k' s'] t IH]; simpl; intros Hnd Hin; [contradiction|].
  inversion Hnd as [|? ? Hnot Hnd']; subst.
  destruct Hin as [Heq|Hin].
  - injection Heq as -> ->. rewrite String.eqb_refl. reflexivity.
  - destruct (String.eqb_spec k' key) as [->|]; [|apply IH; assumption].
    exfalso. apply Hnot. change key with (fst (key, s)). apply in_map. exact Hin.
Qed.

(** Each [scores[key] += term] adds the next contribution to [key]. *)
Lemma fget_fold (ps : list (string * PrimFloat.float)) (sc : Dict PrimFloat.float) (key : string) :
  fget (fold_left add_pair ps sc) key = fold_left PrimFloat.add (terms_for ps key) (fget sc key).
Proof.
  revert sc. induction ps as [|[k v] ps IH]; intros sc; simpl; [reflexivity|].
  rewrite IH. unfold add_pair, terms_for. cbn [fst snd filter]. rewrite fget_add_score.
  destruct (String.eqb k key); reflexivity.
Qed.

Lemma terms_for_app (ps1 ps2 : list (string * PrimFloat.float)) (key : string) :
  terms_for (ps1 ++ ps2) key = terms_for ps1 key ++ terms_for ps2 key.
Proof. unfold terms_for. rewrite filter_app, map_app. reflexivity. Qed.

(** Every score is a non-negative double when every term is. *)
Lemma add_score_nn (sc : Dict PrimFloat.float) (k : string) (v : PrimFloat.float) :
  (forall p, In p sc -> FloatFacts.nn (snd p)) -> FloatFacts.nn v ->
  forall p, In p (add_score sc k v) -> FloatFacts.nn (snd p).
Proof.
  induction sc as [|[k' s] t IH]; simpl; intros Hsc Hv p Hp.
  - destruct Hp as [<-|[]]. apply FloatFacts.add_nn; [apply FloatFacts.zero_nn | exact Hv].
  - destruct (String.eqb k' k).
    + destruct Hp as [<-|Hp]; [|apply Hsc; right; exact Hp].
      apply FloatFacts.add_nn; [apply (Hsc (k', s)); left; reflexivity | exact Hv].
    + destruct Hp as [<-|Hp]; [apply Hsc; left; reflexivity|].
      revert p Hp. apply IH; [intros p' Hp'; apply Hsc; right; exact Hp' | exact Hv].
Qed.

Lemma fold_scores_nn (ps : list (string * PrimFloat.float)) (sc : Dict PrimFloat.float) :
  (forall p, In p ps -> FloatFacts.nn (snd p)) ->
  (forall p, In p sc -> FloatFacts.nn (snd p)) ->
  forall p, In p (fold_left add_pair ps sc) -> FloatFacts.nn (snd p).
Proof.
  intros Hps. apply (fold_left_inv (fun sc => forall p, In p sc -> FloatFacts.nn (snd p))).
  intros acc x Hx Hacc. apply add_score_nn; [exact Hacc | apply Hps; exact Hx].
Qed.

(** *** From the loops of [_retrieve_hybrid] to the (key, term) pairs *)

Definition contribs_from (i : nat) (l : list Document) : list (string * PrimFloat.float) :=
  map (fun rd => (page_content (snd rd), rrf_term (fst rd))) (enumerate_from i l).

Lemma bm25_loop_scores (l : list Document) (i : nat) (sc : Dict PrimFloat.float) (dm : Dict Document) :
  fst (fold_left bm25_step (enumerate_from i l) (sc, dm))
  = fold_left add_pair (contribs_from i l) sc.
Proof.
  revert i sc dm. induction l as [|d l IH]; intros i sc dm; simpl; [reflexivity|].
  apply IH.
Qed.

Lemma vector_loop_scores (l : list Document) (i : nat) (sc : Dict PrimFloat.float) (dm : Dict Document) :
  fst (fold_left vector_step (enumerate_from i l) (sc, dm))
  = fold_left add_pair (contribs_from i l) sc.
Proof.
  revert i sc dm. induction l as [|d l IH]; intros i sc dm; simpl; [reflexivity|].
  apply IH.
Qed.

Lemma fuse_scores (l1 l2 : list Document) :
  fst (fuse l1 l2) = fold_left add_pair (contribs_from 0 l1 ++ contribs_from 0 l2) [].
Proof.
  unfold fuse, enumerate. rewrite fold_left_app.
  destruct (fold_left bm25_step (enumerate_from 0 l1) ([], [])) as [sc dm] eqn:E.
  rewrite vector_loop_scores. f_equal.
  change sc with (fst (sc, dm)). rewrite <- E. apply bm25_loop_scores.
Qed.

Lemma contribs_keys (i : nat) (l : list Document) :
  map fst (contribs_from i l) = map page_content l.
Proof.
  revert i. induction l as [|d l IH]; intros i; simpl; [reflexivity|].
  f_equal. apply IH.
Qed.

Lemma rrf_term_rank (i : nat) : rrf_term i = (1.0 / py_float_of_nat (60 + S i))%float.
Proof. unfold rrf_term, c. do 2 f_equal. lia. Qed.

Lemma contribs_terms (i : nat) (l : list Document) (key : string) :
  terms_for (contribs_from i l) key = rank_terms (S i) l key.
Proof.
  revert i. induction l as [|d l IH]; intros i; [reflexivity|].
  unfold terms_for, contribs_from in *. cbn [enumerate_from map filter fst snd rank_terms].
  rewrite <- IH, rrf_term_rank. destruct (String.eqb (page_content d) key); reflexivity.
Qed.

Lemma contribs_nn (i : nat) (l : list Document) :
  forall p, In p (contribs_from i l) -> FloatFacts.nn (snd p).
Proof.
  intros p Hp. unfold contribs_from in Hp. apply in_map_iff in Hp as [rd [<- _]].
  apply FloatFacts.rrf_term_nn.
Qed.

(** *** The [doc_map] dictionary *)

Lemma dict_get_set {V} (d : Dict V) (k key : string) (v : V) :
  dict_get (dict_set d k v) key = if String.eqb k key then Some v else dict_get d key.
Proof.
  induction d as [|[k' w] t IH]; simpl; [reflexivity|].
  destruct (String.eqb_spec k' k) as [->|Hne]; simpl.
  - destruct (String.eqb k key); reflexivity.
  - destruct (String.eqb_spec k' key) as [->|]; [|exact IH].
    destruct (String.eqb_spec k key); [congruence|reflexivity].
Qed.

(** Every scored key has a [doc_map] entry, and every entry is a document
    of [U] whose content is its key. *)
Definition docmap_inv (U : list Document) (acc : Dict PrimFloat.float * Dict Document) : Prop :=
  (forall key, In key (map fst (fst acc)) -> exists d, dict_get (snd acc) key = Some d) /\
  (forall key d, dict_get (snd acc) key = Some d -> page_content d = key /\ In d U).

Lemma add_score_keys (sc : Dict PrimFloat.float) (k x : string) (v : PrimFloat.float) :
  In x (map fst (add_score sc k v)) -> In x (map fst sc) \/ x = k.
Proof.
  destruct (in_dec string_dec k (map fst sc)) as [Hk|Hk].
  - rewrite add_score_keys_in by exact Hk. left. exact H.
  - rewrite add_score_keys_new by exact Hk. intros H.
    apply in_app_or in H as [H|[H|[]]]; [left; exact H | right; symmetry; exact H].
Qed.

Lemma in_enumerate {A} (i : nat) (l : list A) (r : nat) (x : A) :
  In (r, x) (enumerate_from i l) -> In x l.
Proof.
  revert i. induction l as [|y l IH]; simpl; intros i H; [contradiction|].
  destruct H as [H|H]; [injection H as _ ->; left; reflexivity | right; eapply IH; exact H].
Qed.

Lemma docmap_inv_bm25 (U : list Document) acc rd :
  In (snd rd) U -> docmap_inv U acc -> docmap_inv U (bm25_step acc rd).
Proof.
  destruct acc as [sc dm], rd as [rank d]. simpl. intros HU [Hk Hv]. split; simpl.
  - intros key Hkey. rewrite dict_get_set.
    destruct (String.eqb_spec (page_content d) key); [eexists; reflexivity|].
    apply add_score_keys in Hkey as [Hkey|Hkey]; [apply Hk; exact Hkey | congruence].
  - intros key d'. rewrite dict_get_set.
    destruct (String.eqb_spec (page_content d) key) as [<-|].
    + intros H; injection H as <-. split; [reflexivity | exact HU].
    + apply Hv.
Qed.

Lemma docmap_inv_vector (U : list Document) acc rd :
  In (snd rd) U -> docmap_inv U acc -> docmap_inv U (vector_step acc rd).
Proof.
  destruct acc as [sc dm], rd as [rank d]. simpl. intros HU [Hk Hv].
  unfold dict_mem. destruct (dict_get dm (page_content d)) as [d0|] eqn:E; split; simpl.
  - intros key Hkey. apply add_score_keys in Hkey as [Hkey | ->];
      [apply Hk; exact Hkey | exists d0; exact E].
  - exact Hv.
  - intros key Hkey. rewrite dict_get_set.
    destruct (String.eqb_spec (page_content d) key); [eexists; reflexivity|].
    apply add_score_keys in Hkey as [Hkey|Hkey]; [apply Hk; exact Hkey | congruence].
  - intros key d'. rewrite dict_get_set.
    destruct (String.eqb_spec (page_content d) key) as [<-|].
    + intros H; injection H as <-. split; [reflexivity | exact HU].
    + apply Hv.
Qed.

Lemma docmap_inv_fuse (l1 l2 : list Document) : docmap_inv (l1 ++ l2) (fuse l1 l2).
Proof.
  unfold fuse, enumerate.
  apply fold_left_inv.
  { intros acc [r d] Hin. apply docmap_inv_vector. simpl.
    apply in_or_app. right. eapply in_enumerate. exact Hin. }
  apply fold_left_inv.
  { intros acc [r d] Hin. apply docmap_inv_bm25. simpl.
    apply in_or_app. left. eapply in_enumerate. exact Hin. }
  split; simpl; [tauto | discriminate].
Qed.

(** *** The stable descending sort *)

Definition ins (acc : list (string * PrimFloat.float)) (x : string * PrimFloat.float) := insert_desc x acc.

Lemma insert_desc_perm (x : string * PrimFloat.float) (l : list (string * PrimFloat.float)) :
  Permutation (insert_desc x l) (x :: l).
Proof.
  induction l as [|y l IH]; simpl; [reflexivity|].
  destruct (snd y <? snd x)%float; [reflexivity|].
  rewrite IH. apply perm_swap.
Qed.

Lemma sort_perm_acc (l acc : list (string * PrimFloat.float)) :
  Permutation (fold_left ins l acc) (l ++ acc).
Proof.
  revert acc. induction l as [|x l IH]; intros acc; simpl; [reflexivity|].
  rewrite IH. unfold ins. rewrite insert_desc_perm. symmetry. apply Permutation_middle.
Qed.

Lemma sort_desc_perm (l : list (string * PrimFloat.float)) : Permutation (sort_desc l) l.
Proof. unfold sort_desc. rewrite (sort_perm_acc l []), app_nil_r. reflexivity. Qed.

Section Stable.
Variable pos : string -> nat.

Definition R_pos (a b : string * PrimFloat.float) : Prop :=
  (snd b <? snd a)%float = true \/
  ((snd a =? snd b)%float = true /\ (pos (fst a) < pos (fst b))%nat).

(** All scores of a list are non-negative doubles. *)
Definition all_nn (l : list (string * PrimFloat.float)) : Prop :=
  forall z, In z l -> FloatFacts.nn (snd z).

Lemma insert_desc_sorted (x : string * PrimFloat.float) (l : list (string * PrimFloat.float)) :
  all_nn (x :: l) ->
  StronglySorted R_pos l -> (forall y, In y l -> (pos (fst y) < pos (fst x))%nat) ->
  StronglySorted R_pos (insert_desc x l).
Proof.
  induction l as [|y l IH]; intros Hnn Hs Hpos; simpl.
  - constructor; constructor.
  - apply StronglySorted_inv in Hs as [Hs Hf].
    assert (Hx : FloatFacts.nn (snd x)) by (apply Hnn; left; reflexivity).
    assert (Hy : FloatFacts.nn (snd y)) by (apply Hnn; right; left; reflexivity).
    destruct (snd y <? snd x)%float eqn:E.
    + constructor; [constructor; assumption|].
      constructor; [left; exact E|].
      rewrite Forall_forall in *. intros z Hz. left.
      apply (FloatFacts.le_lt_trans_f (snd x) (snd y) (snd z));
        [exact Hx | exact Hy | apply Hnn; right; right; exact Hz | | exact E].
      destruct (Hf z Hz) as [H|[H _]]; [left | right]; exact H.
    + constructor.
      * apply IH; [intros z [<-|Hz]; apply Hnn; [left; reflexivity | right; right; exact Hz]
                  | exact Hs | intros z Hz; apply Hpos; right; exact Hz].
      * rewrite Forall_forall in *. intros z Hz.
        apply (Permutation_in _ (insert_desc_perm x l)) in Hz as [ <- | Hz ]; [|apply Hf, Hz].
        destruct (FloatFacts.ltb_false_cases _ _ Hy Hx E) as [E'|E']; [left; exact E'|].
        right. split; [exact E' | apply Hpos; left; reflexivity].
Qed.

Lemma sort_sorted_acc (l acc : list (string * PrimFloat.float)) :
  all_nn (l ++ acc) ->
  StronglySorted R_pos acc ->
  StronglySorted (fun a b => (pos (fst a) < pos (fst b))%nat) l ->
  (forall y x, In y acc -> In x l -> (pos (fst y) < pos (fst x))%nat) ->
  StronglySorted R_pos (fold_left ins l acc).
Proof.
  revert acc. induction l as [|x l IH]; intros acc Hnn Hacc Hl Hlt; simpl; [exact Hacc|].
  apply StronglySorted_inv in Hl as [Hl Hf]. rewrite Forall_forall in Hf.
  apply IH; [| | exact Hl |].
  - intros z Hz. apply Hnn. apply in_app_or in Hz as [Hz|Hz]; [right; apply in_or_app; left; exact Hz|].
    unfold ins in Hz. apply (Permutation_in _ (insert_desc_perm x acc)) in Hz as [<-|Hz];
      [left; reflexivity | right; apply in_or_app; right; exact Hz].
  - apply insert_desc_sorted; [| exact Hacc |].
    + intros z [<-|Hz]; apply Hnn; [left; reflexivity | right; apply in_or_app; right; exact Hz].
    + intros y Hy. apply Hlt; [exact Hy | left; reflexivity].
  - intros y z Hy Hz. unfold ins in Hy.
    apply (Permutation_in _ (insert_desc_perm x acc)) in Hy as [ <- | Hy ].
    + apply Hf. exact Hz.
    + apply Hlt; [exact Hy | right; exact Hz].
Qed.

Lemma sort_desc_sorted (l : list (string * PrimFloat.float)) :
  all_nn l ->
  StronglySorted (fun a b => (pos (fst a) < pos (fst b))%nat) l ->
  StronglySorted R_pos (sort_desc l).
Proof.
  intros Hnn H. apply sort_sorted_acc; [rewrite app_nil_r; exact Hnn | constructor | exact H | intros y x []].
Qed.

End Stable.

(** *** Putting the merge together *)

Lemma py_take_incl {A} (k : Z) (l : list A) (x : A) : In x (py_take k l) -> In x l.
Proof.
  unfold py_take. destruct (0 <=? k)%Z; intros H.
  - rewrite <- (firstn_skipn (Z.to_nat k) l). apply in_or_app. left. exact H.
  - rewrite <- (firstn_skipn (List.length l - Z.to_nat (- k)) l).
    apply in_or_app. left. exact H.
Qed.

Lemma NoDup_firstn_of {A} (n : nat) (l : list A) : NoDup l -> NoDup (firstn n l).
Proof.
  intros H. rewrite <- (firstn_skipn n l) in H. eapply NoDup_app_remove_r. exact H.
Qed.

Lemma map_exc_ok (dm : Dict Document) (U : list Document) (l : list (string * PrimFloat.float)) :
  (forall p, In p l -> exists d, dict_get dm (fst p) = Some d /\
                                 page_content d = fst p /\ In d U) ->
  exists out,
    map_exc (fun p => let '(content, _) := p in dict_index dm content) l = Ok out /\
    map page_content out = map fst l /\ (forall d, In d out -> In d U).
Proof.
  induction l as [|[key s] l IH]; intros H.
  - exists []. repeat split. intros d [].
  - destruct (H (key, s) (or_introl eq_refl)) as [d [Hd [Hc HU]]]. cbn [fst] in Hd, Hc.
    destruct IH as [out [Hm [Hk Hin]]]; [intros p Hp; apply H; right; exact Hp|].
    exists (d :: out). cbn [map_exc]. rewrite Hm. unfold dict_index. rewrite Hd.
    repeat split.
    + simpl. rewrite Hc, Hk. reflexivity.
    + intros d' [<-|Hd']; [exact HU | apply Hin; exact Hd'].
Qed.

(** Facts on the [scores] dictionary of [_retrieve_hybrid]. *)
Lemma scores_facts (bd vd : list Document) :
  keys_inv (fst (fuse bd vd)) (map page_content (bd ++ vd)) /\
  (forall key s, In (key, s) (fst (fuse bd vd)) -> s = fused_score bd vd key) /\
  all_nn (fst (fuse bd vd)).
Proof.
  rewrite fuse_scores.
  assert (Hk : map fst (contribs_from 0 bd ++ contribs_from 0 vd) = map page_content (bd ++ vd)).
  { rewrite !map_app, !contribs_keys. reflexivity. }
  split; [|split].
  - rewrite <- Hk. apply keys_inv_fold.
  - intros key s Hin.
    pose proof (keys_inv_fold (contribs_from 0 bd ++ contribs_from 0 vd)) as [_ [Hnd _]].
    rewrite <- (fget_in _ _ _ Hnd Hin), fget_fold, terms_for_app, !contribs_terms.
    reflexivity.
  - intros z Hz. apply (fold_scores_nn (contribs_from 0 bd ++ contribs_from 0 vd) []);
      [| intros p [] | exact Hz].
    intros p Hp. apply in_app_or in Hp as [Hp|Hp]; eapply contribs_nn; exact Hp.
Qed.

(** Shared core: with both collaborators answering, [_retrieve_hybrid]
    cannot fail and returns the [doc_map] entries of [sorted_docs[:k]]. *)
Lemma hybrid_core (r : DocumentRetriever) b query k bd vd :
  b query = Ok bd -> similarity_search (vectorstore r) query k = Ok vd ->
  exists out,
    retrieve_hybrid r b query k = Ok out /\
    map page_content out = map fst (py_take k (sort_desc (fst (fuse bd vd)))) /\
    (forall d, In d out -> In d (bd ++ vd)).
Proof.
  intros Hb Hv. unfold retrieve_hybrid. rewrite Hb, Hv.
  pose proof (docmap_inv_fuse bd vd) as [Hk Hd].
  destruct (fuse bd vd) as [sc dm]. simpl in *.
  apply map_exc_ok. intros p Hp.
  apply py_take_incl, (Permutation_in _ (sort_desc_perm sc)) in Hp.
  destruct (Hk (fst p)) as [d Hdm]; [apply in_map; exact Hp|].
  exists d. destruct (Hd _ _ Hdm) as [Hc HU]. auto.
Qed.

Lemma fused_length (bd vd : list Document) :
  List.length (sort_desc (fst (fuse bd vd)))
  = List.length (nodup string_dec (map page_content (bd ++ vd))).
Proof.
  rewrite (Permutation_length (sort_desc_perm _)), <- (length_map fst).
  apply Permutation_length, NoDup_Permutation.
  - apply (proj1 (scores_facts bd vd)).
  - apply NoDup_nodup.
  - intros x. rewrite nodup_In. apply (proj1 (scores_facts bd vd)).
Qed.

(** The list [sorted(scores.items(), key=..., reverse=True)] of
    [_retrieve_hybrid]: one entry per chunk content of the two lists, with
    its fused double score, in [fused_before] order. *)
Lemma fused_facts (bd vd : list Document) :
  let fused := sort_desc (fst (fuse bd vd)) in
  let cs := map page_content (bd ++ vd) in
  (forall key s, In (key, s) fused -> s = fused_score bd vd key) /\
  (forall key, In key (map fst fused) <-> In key cs) /\
  NoDup (map fst fused) /\
  StronglySorted (fused_before cs) fused.
Proof.
  intros fused cs.
  pose proof (scores_facts bd vd) as [[Hkeys [Hnd Hss]] [Hval Hnn]].
  set (sc := fst (fuse bd vd)) in *.
  assert (Hperm := sort_desc_perm sc).
  assert (Hpk : Permutation (map fst fused) (map fst sc))
    by (apply Permutation_map; exact Hperm).
  split; [|split; [|split]].
  - intros key s Hks. apply Hval. apply (Permutation_in _ Hperm). exact Hks.
  - intros key. split.
    + intros Hx. apply Hkeys. apply (Permutation_in _ Hpk). exact Hx.
    + intros Hx. apply Hkeys in Hx. apply (Permutation_in _ (Permutation_sym Hpk)). exact Hx.
  - eapply Permutation_NoDup; [symmetry; exact Hpk | exact Hnd].
  - apply (sort_desc_sorted (fun x => first_index x cs)); [exact Hnn|].
    apply (SS_map (fun a b => (first_index a cs < first_index b cs)%nat)). exact Hss.
Qed.

End FusionFacts.

Module RetrieverFacts.
Import FusionFacts.
Local Open Scope list_scope.

Lemma effective_k_nonzero (r : DocumentRetriever) (k : Z) :
  k <> 0%Z -> effective_k r (Some k) = k.
Proof.
  intros Hk. unfold effective_k. destruct (Z.eqb_spec k 0); [contradiction | reflexivity].
Qed.

(** Keyword results for the tie example: forty distinct chunks, ["A"] at
    index 11 and ["B"] at index 38. *)
Definition tie_list (prefix : string) (ia ib : nat) : list Document :=
  map (fun i => if Nat.eqb i ia then mkDocument "A" []
                else if Nat.eqb i ib then mkDocument "B" []
                else mkDocument (prefix ++ WebTool.str_of_nat i) [])
      (seq 0 40).

Definition tie_keyword : list Document := tie_list "k" 11 38.

(** Vector results for the tie example: ["B"] at index 5, ["A"] at
    index 27. *)
Definition tie_vector : list Document := tie_list "v" 27 5.

(** C1 (counterexample): ["A"] (keyword rank 12, vector rank 28) and ["B"]
    (keyword rank 39, vector rank 6) have the same exact fused score
    [1/72 + 1/88 = 1/99 + 1/66 = 5/198], and ["A"] is seen first. The
    double sums differ in the last bit ([0.025252525252525252] for ["A"],
    [0.025252525252525256] for ["B"]), so hybrid retrieval returns ["B"]
    before ["A"]: the tie is not broken by first-seen order. *)
Lemma hybrid_exact_tie_cex :
  let r := mkRetriever (mkVectorStore (fun _ _ => Ok tie_vector) (fun _ _ => Ok []))
                       5 (7 # 10) (Some (fun _ => Ok tie_keyword)) in
  let cs := map page_content (tie_keyword ++ tie_vector) in
  fused_score_spec tie_keyword tie_vector "A" == fused_score_spec tie_keyword tie_vector "B" /\
  (first_index "A" cs < first_index "B" cs)%nat /\
  (fused_score tie_keyword tie_vector "A" <? fused_score tie_keyword tie_vector "B")%float = true /\
  exists out, retrieve r "q" (Some 100%Z) = Ok out /\
    In "A" (map page_content out) /\
    (first_index "B" (map page_content out) < first_index "A" (map page_content out))%nat.
Proof.
  intros r cs. split; [vm_compute; reflexivity|].
  split; [apply Nat.ltb_lt; vm_compute; reflexivity|].
  split; [vm_compute; reflexivity|].
  destruct (retrieve r "q" (Some 100%Z)) as [out|e] eqn:E; [|vm_compute in E; discriminate E].
  exists out. split; [reflexivity|].
  vm_compute in E. injection E as <-. split.
  - vm_compute. tauto.
  - apply Nat.ltb_lt. vm_compute. reflexivity.
Qed.

(** C1 (amended): hybrid retrieval with a limit [k > 0]. The fused list
    [fused] (what [sorted(scores.items(), ...)] returns) holds each chunk
    content of the two lists once, with the double score [fused_score]:
    [0.0] plus [1.0 / float(60 + r)] for its 1-based ranks [r] in the
    keyword list, then in the vector list, added with rounding; it is
    sorted by descending double score, equal doubles in first-seen order;
    the result is the documents of its first [k] entries, without
    duplicate contents; two content-disjoint lists of [n] chunks each give
    [min (2n) k] results. *)
Theorem hybrid_rrf_fusion :
  forall (r : DocumentRetriever) b query (k : Z) (bd vd : list Document),
    bm25_retriever r = Some b -> (0 < k)%Z ->
    b query = Ok bd -> similarity_search (vectorstore r) query k = Ok vd ->
    exists (fused : list (string * PrimFloat.float)) (out : list Document),
      retrieve r query (Some k) = Ok out /\
      map page_content out = firstn (Z.to_nat k) (map fst fused) /\
      (forall d, In d out -> In d (bd ++ vd)) /\
      (forall key s, In (key, s) fused -> s = fused_score bd vd key) /\
      (forall key, In key (map fst fused) <-> In key (map page_content (bd ++ vd))) /\
      NoDup (map fst fused) /\
      StronglySorted (fused_before (map page_content (bd ++ vd))) fused /\
      NoDup (map page_content out) /\
      (forall n, List.length bd = n -> List.length vd = n ->
                 NoDup (map page_content (bd ++ vd)) ->
                 List.length out = Nat.min (2 * n) (Z.to_nat k)).
Proof.
  intros r b query k bd vd Hr Hk Hb Hv.
  destruct (hybrid_core r b query k bd vd Hb Hv) as [out [Hout [Hmap Hin]]].
  destruct (fused_facts bd vd) as [Hval [Hkeys [HndF Hsorted]]].
  set (cs := map page_content (bd ++ vd)) in *.
  set (sc := fst (fuse bd vd)) in *.
  assert (Htake : py_take k (sort_desc sc) = firstn (Z.to_nat k) (sort_desc sc)).
  { unfold py_take. destruct (Z.leb_spec 0 k); [reflexivity | lia]. }
  assert (Hmap' : map page_content out = firstn (Z.to_nat k) (map fst (sort_desc sc)))
    by (rewrite Hmap, Htake, firstn_map; reflexivity).
  exists (sort_desc sc), out. repeat split.
  - unfold retrieve. rewrite effective_k_nonzero by lia. rewrite Hr. exact Hout.
  - exact Hmap'.
  - exact Hin.
  - exact Hval.
  - apply Hkeys.
  - apply Hkeys.
  - exact HndF.
  - exact Hsorted.
  - rewrite Hmap'. apply NoDup_firstn_of. exact HndF.
  - intros n Hn1 Hn2 Hndcs.
    rewrite <- (length_map page_content out), Hmap', length_firstn, length_map.
    unfold sc. rewrite fused_length, nodup_fixed_point by exact Hndcs.
    unfold cs. rewrite length_map, length_app. lia.
Qed.

Lemma hybrid_rrf_fusion_witness :
  let bd := [mkDocument "a" []; mkDocument "b" []] in
  let vd := [mkDocument "b" []; mkDocument "c" []] in
  let r := mkRetriever (mkVectorStore (fun _ _ => Ok vd) (fun _ _ => Ok []))
                       5 (7 # 10) (Some (fun _ => Ok bd)) in
  exists (fused : list (string * PrimFloat.float)) (out : list Document),
    retrieve r "q" (Some 5%Z) = Ok out /\
    map page_content out = firstn 5 (map fst fused) /\
    (forall d, In d out -> In d (bd ++ vd)) /\
    (forall key s, In (key, s) fused -> s = fused_score bd vd key) /\
    (forall key, In key (map fst fused) <-> In key (map page_content (bd ++ vd))) /\
    NoDup (map fst fused) /\
    StronglySorted (fused_before (map page_content (bd ++ vd))) fused /\
    NoDup (map page_content out) /\
    (forall n, List.length bd = n -> List.length vd = n ->
               NoDup (map page_content (bd ++ vd)) ->
               List.length out = Nat.min (2 * n) 5).
Proof.
  intros bd vd r.
  apply (hybrid_rrf_fusion r (fun _ => Ok bd) "q" 5%Z bd vd); reflexivity.
Defined.

(** C2 (counterexample): when the keyword search raises, [retrieve] raises
    the same error instead of returning the vector results. *)
Lemma hybrid_keyword_error_cex :
  let r := mkRetriever
             (mkVectorStore (fun _ _ => Ok [mkDocument "v" []]) (fun _ _ => Ok []))
             5 (7 # 10) (Some (fun _ => Raise "BM25 unavailable")) in
  retrieve r "q" None = Raise "BM25 unavailable" /\
  retrieve r "q" None <> Ok [mkDocument "v" []].
Proof.
  intros r. assert (E : retrieve r "q" None = Raise "BM25 unavailable") by reflexivity.
  split; [exact E | rewrite E; discriminate].
Qed.

(** C2 (amended): in hybrid mode an exception of either search
    collaborator propagates out of [retrieve] unchanged; the keyword search
    runs first, so its exception wins. *)
Theorem hybrid_collaborator_errors_propagate :
  forall (r : DocumentRetriever) b query k e,
    bm25_retriever r = Some b ->
    (b query = Raise e -> retrieve r query k = Raise e) /\
    (forall bd, b query = Ok bd ->
       similarity_search (vectorstore r) query (effective_k r k) = Raise e ->
       retrieve r query k = Raise e).
Proof.
  intros r b query k e Hr. unfold retrieve, retrieve_hybrid. rewrite Hr. split.
  - intros Hb. rewrite Hb. reflexivity.
  - intros bd Hb Hv. rewrite Hb, Hv. reflexivity.
Qed.

Lemma hybrid_collaborator_errors_propagate_witness :
  let r := mkRetriever
             (mkVectorStore (fun _ _ => Raise "vector store down") (fun _ _ => Ok []))
             5 (7 # 10) (Some (fun _ => Ok [mkDocument "k" []])) in
  retrieve r "q" None = Raise "vector store down".
Proof.
  intros r.
  apply (proj2 (hybrid_collaborator_errors_propagate r (fun _ => Ok [mkDocument "k" []])
                  "q" None "vector store down" eq_refl) [mkDocument "k" []]);
    reflexivity.
Defined.

(** C7: with no keyword index, [retrieve] runs the scored vector search
    alone and returns, in order, exactly the results whose score is not
    below the floor; when no result reaches the floor it returns the
    empty list; the floor defaults to 0.7. *)
Theorem vector_only_similarity_floor :
  forall (r : DocumentRetriever) query k results,
    bm25_retriever r = None ->
    similarity_search_with_score (vectorstore r) query (effective_k r k) = Ok results ->
    exists out,
      retrieve r query k = Ok out /\
      out = map fst (filter (fun p => Qle_bool (similarity_threshold r) (snd p)) results) /\
      (forall d, In d out <-> exists s, In (d, s) results /\ similarity_threshold r <= s) /\
      ((forall p, In p results -> snd p < similarity_threshold r) -> out = []) /\
      init_threshold None None = 7 # 10.
Proof.
  intros r query k results Hr Hv.
  set (out := map fst (filter (fun p => Qle_bool (similarity_threshold r) (snd p)) results)).
  assert (Hin : forall d, In d out <-> exists s, In (d, s) results /\ similarity_threshold r <= s).
  { intros d. unfold out. rewrite in_map_iff. split.
    - intros [[d' s] [Heq Hf]]. simpl in Heq. subst d'. apply filter_In in Hf as [Hf Hq].
      exists s. split; [exact Hf | apply Qle_bool_iff; exact Hq].
    - intros [s [Hf Hq]]. exists (d, s). split; [reflexivity|].
      apply filter_In. split; [exact Hf | apply Qle_bool_iff; exact Hq]. }
  exists out. split; [|split; [reflexivity|split; [exact Hin|split; [|reflexivity]]]].
  - unfold retrieve, retrieve_semantic. rewrite Hr, Hv. f_equal. unfold out. f_equal.
    apply filter_ext. intros [d s]. reflexivity.
  - intros Hall. clearbody out. destruct out as [|d0 t]; [reflexivity|].
    destruct (proj1 (Hin d0) (or_introl eq_refl)) as [s [Hs Hq]].
    exfalso. apply (Qlt_not_le s (similarity_threshold r)); [apply (Hall (d0, s) Hs) | exact Hq].
Qed.

(** The spec's example: scores [0.9, 0.6, 0.5] with the default floor 0.7. *)
Lemma vector_only_similarity_floor_witness :
  let d1 := mkDocument "Q4 revenue was 5.6B" [] in
  let d2 := mkDocument "Headcount grew" [] in
  let d3 := mkDocument "Office locations" [] in
  let r := mkRetriever
             (mkVectorStore (fun _ _ => Ok [])
                            (fun _ _ => Ok [(d1, 9 # 10); (d2, 6 # 10); (d3, 5 # 10)]))
             (init_top_k None None) (init_threshold None None) None in
  retrieve r "What was total revenue in Q4?" None = Ok [d1].
Proof.
  intros d1 d2 d3 r.
  destruct (vector_only_similarity_floor r "What was total revenue in Q4?" None
              [(d1, 9 # 10); (d2, 6 # 10); (d3, 5 # 10)] eq_refl eq_refl)
    as [out [Hret [Hout _]]].
  rewrite Hret, Hout. reflexivity.
Defined.




End RetrieverFacts.

(** * Further properties of the workflow, the retriever and the web tool *)

Module GraphPaths.
Import Graph GraphReach.

Section WithEnv.
Variable env : Env.

Lemma get_retry_grade (st : AgentState) : get_retry (grade_documents env st) = get_retry st.
Proof. unfold grade_documents. destruct (String.eqb _ _); reflexivity. Qed.

Lemma decide_after_check_cases (st : AgentState) :
  decide_after_check st = End \/ decide_after_check st = Go PlanResearch.
Proof.
  unfold decide_after_check.
  destruct (String.eqb _ "grounded"); [left; reflexivity|].
  destruct (match is_web st with Some b => b | None => false end); [left | right]; reflexivity.
Qed.

End WithEnv.

End GraphPaths.

Module GraphInvariants.
Import Graph GraphReach.

(** Inverts one step of the workflow. *)
Ltac step_inv Hs :=
  cbn [step] in Hs; inversion Hs; subst; clear Hs.

Lemma retry_invariant (env : Env) (q : string) (n : Node) (st : AgentState) :
  reach env Retrieve (init_state q) n st ->
  (get_retry st <= 1)%nat /\ (n = TransformQuery -> get_retry st = 0%nat).
Proof.
  induction 1 as [|n1 st1 st2 n2 _ [IH1 IH2] Hs].
  - split; [unfold get_retry; simpl; lia | reflexivity].
  - destruct n1; step_inv Hs.
    + split; [exact IH1 | discriminate].
    + rewrite GraphPaths.get_retry_grade. split; [exact IH1|].
      intros E. unfold decide_to_generate in E.
      destruct (documents (grade_documents env st1)); [|discriminate].
      rewrite GraphPaths.get_retry_grade in E.
      destruct (Nat.ltb_spec (get_retry st1) max_retries); [|discriminate].
      unfold max_retries in *; lia.
    + split; [|discriminate]. exact IH1.
    + specialize (IH2 eq_refl).
      assert (E : get_retry (transform_query st1) = S (get_retry st1)) by reflexivity.
      rewrite E, IH2. split; [lia | discriminate].
    + split; [exact IH1 | discriminate].
    + split; [exact IH1 | discriminate].
    + split; [exact IH1|]. intros E.
      destruct (GraphPaths.decide_after_check_cases (check_hallucination_node env st1)) as [E'|E'];
        rewrite E' in *; congruence.
Qed.

Lemma evidence_invariant (env : Env) (q : string) (n : Node) (st : AgentState) :
  reach env Retrieve (init_state q) n st ->
  (n = Generate \/ n = CheckHallucination) -> documents st <> [].
Proof.
  induction 1 as [|n1 st1 st2 n2 _ IH Hs].
  - intros [E|E]; discriminate.
  - destruct n1; step_inv Hs; intros Hn; try (destruct Hn; discriminate).
    + unfold decide_to_generate in Hn.
      destruct (documents (grade_documents env st1)); [|discriminate].
      destruct (_ <? _)%nat; destruct Hn; discriminate.
    + simpl. apply IH. left. reflexivity.
    + destruct (GraphPaths.decide_after_check_cases (check_hallucination_node env st1)) as [E'|E'];
        rewrite E' in *; destruct Hn; congruence.
Qed.

Lemma not_web_invariant (env : Env) (q : string) (n : Node) (st : AgentState) :
  reach env Retrieve (init_state q) n st ->
  n <> WebSearch -> n <> SynthesizeResearch -> is_web st = None.
Proof.
  induction 1 as [|n1 st1 st2 n2 _ IH Hs].
  - intros _ _. reflexivity.
  - destruct n1; step_inv Hs; intros Hw Hsy; try congruence.
    + apply IH; discriminate.
    + unfold grade_documents. destruct (String.eqb _ _); apply IH; discriminate.
    + apply IH; discriminate.
    + apply IH; discriminate.
    + apply IH; discriminate.
Qed.

Lemma queries_invariant (env : Env) (q : string) (n : Node) (st : AgentState) :
  reach env Retrieve (init_state q) n st ->
  n = WebSearch -> research_queries st = Some (generate_queries env (question st)).
Proof.
  induction 1 as [|n1 st1 st2 n2 _ IH Hs].
  - discriminate.
  - destruct n1; step_inv Hs; intros Hn; try discriminate.
    + unfold decide_to_generate in Hn.
      destruct (documents (grade_documents env st1)); [|discriminate].
      destruct (_ <? _)%nat; discriminate.
    + reflexivity.
    + destruct (GraphPaths.decide_after_check_cases (check_hallucination_node env st1)) as [E'|E'];
        rewrite E' in *; congruence.
Qed.

Lemma generate_queries_length (llm : string -> Exc string) (question : string) :
  (List.length (Research.generate_queries llm question) <= 3)%nat.
Proof.
  unfold Research.generate_queries. destruct (llm question).
  - rewrite length_firstn. lia.
  - simpl. lia.
Qed.

(** Sample collaborators: a retriever that always
    finds one page, a relevance judge answering [r], an echoing generator
    and a groundedness judge answering [g]. *)
Definition sample_env (r : string) (g : bool) : Env :=
  mkEnv (fun _ => [mkDocument "Revenue was 5B" []]) (fun _ _ => Ok r)
        (fun _ _ => "Revenue was 5B.") (fun _ _ => g)
        (Research.generate_queries (fun _ => Ok "1. Adobe revenue 2023
2. Adobe revenue Q4"))
        (fun qs => map (fun q => mkDocument q []) qs) (fun _ _ => "").

(** Reachable state of [sample_env r g] at each node on the way
    Retrieve, GradeDocuments, Generate, CheckHallucination, PlanResearch,
    WebSearch. *)
Definition s_retrieve (q : string) := init_state q.
Definition s_grade r g q := retrieve (sample_env r g) (s_retrieve q).
Definition s_generate r g q := grade_documents (sample_env r g) (s_grade r g q).
Definition s_check r g q := generate (sample_env r g) (s_generate r g q).
Definition s_plan r g q := check_hallucination_node (sample_env r g) (s_check r g q).
Definition s_web r g q := plan_research (sample_env r g) (s_plan r g q).

Lemma reach_sample_check (g : bool) (q : string) :
  reach (sample_env "yes" g) Retrieve (init_state q) CheckHallucination (s_check "yes" g q).
Proof.
  eapply (reach_next _ _ _ Generate (s_generate "yes" g q)); [|reflexivity].
  eapply (reach_next _ _ _ GradeDocuments (s_grade "yes" g q)); [|reflexivity].
  eapply (reach_next _ _ _ Retrieve (s_retrieve q)); [apply reach_here | reflexivity].
Qed.

Lemma reach_sample_web (q : string) :
  reach (sample_env "yes" false) Retrieve (init_state q) WebSearch (s_web "yes" false q).
Proof.
  eapply (reach_next _ _ _ PlanResearch (s_plan "yes" false q)); [|reflexivity].
  eapply (reach_next _ _ _ CheckHallucination (s_check "yes" false q)); [|reflexivity].
  apply reach_sample_check.
Qed.

(** In every state the workflow reaches from [{"question": q}],
    [retry_count] is at most 1, and it is 0 whenever TransformQuery is
    about to run: the query is broadened at most once. *)
Theorem reachable_retry_at_most_one (env : Env) (q : string) (n : Node) (st : AgentState) :
  reach env Retrieve (init_state q) n st ->
  (get_retry st <= 1)%nat /\ (n = TransformQuery -> get_retry st = 0%nat).
Proof. apply retry_invariant. Qed.

Lemma reachable_retry_at_most_one_witness :
  (get_retry (s_check "yes" true "Q4 revenue?") <= 1)%nat /\
  (CheckHallucination = TransformQuery -> get_retry (s_check "yes" true "Q4 revenue?") = 0%nat).
Proof. apply (reachable_retry_at_most_one (sample_env "yes" true) "Q4 revenue?"). apply reach_sample_check. Defined.

(** Whenever the workflow reaches CheckHallucination, the state holds at
    least one document, so the "no documents, grounded" shortcut of the
    node is never taken: an answer with a refusal phrase is graded
    hallucinated without a judge call, any other answer is graded by one
    judge call. *)
Theorem reachable_check_has_evidence (env : Env) (q : string) (st : AgentState) :
  reach env Retrieve (init_state q) CheckHallucination st ->
  documents st <> [] /\
  check_hallucination (check_groundedness env) (answer st) (documents st) =
    (if existsb (fun indicator => contains indicator (lower (answer st))) refusal_indicators
     then ("hallucinated", 0%nat)
     else if check_groundedness env (answer st) (documents st)
          then ("grounded", 1%nat) else ("hallucinated", 1%nat)).
Proof.
  intros H. pose proof (evidence_invariant env q _ _ H (or_intror eq_refl)) as Hd.
  split; [exact Hd|]. unfold check_hallucination.
  destruct (documents st); [congruence | reflexivity].
Qed.

Lemma reachable_check_has_evidence_witness :
  let st := s_check "yes" true "Q4 revenue?" in
  documents st <> [] /\
  check_hallucination (check_groundedness (sample_env "yes" true)) (answer st) (documents st) =
    (if existsb (fun indicator => contains indicator (lower (answer st))) refusal_indicators
     then ("hallucinated", 0%nat)
     else if check_groundedness (sample_env "yes" true) (answer st) (documents st)
          then ("grounded", 1%nat) else ("hallucinated", 1%nat)).
Proof. apply (reachable_check_has_evidence (sample_env "yes" true) "Q4 revenue?"). apply reach_sample_check. Defined.

(** [is_web] is never set when CheckHallucination runs (web search only
    happens after it), so the edge after the check depends on the verdict
    alone: grounded ends the run, anything else goes to PlanResearch. *)
Theorem reachable_check_edge_by_verdict (env : Env) (q : string) (st : AgentState) :
  reach env Retrieve (init_state q) CheckHallucination st ->
  is_web st = None /\
  decide_after_check (check_hallucination_node env st) =
    if String.eqb (fst (check_hallucination (check_groundedness env) (answer st) (documents st)))
                  "grounded"
    then End else Go PlanResearch.
Proof.
  intros H. pose proof (not_web_invariant env q _ _ H ltac:(discriminate) ltac:(discriminate)) as Hw.
  split; [exact Hw|]. unfold decide_after_check. simpl. rewrite Hw.
  destruct (String.eqb _ _); reflexivity.
Qed.

Lemma reachable_check_edge_by_verdict_witness :
  let st := s_check "yes" false "Q4 revenue?" in
  is_web st = None /\
  decide_after_check (check_hallucination_node (sample_env "yes" false) st) =
    if String.eqb (fst (check_hallucination (check_groundedness (sample_env "yes" false))
                                            (answer st) (documents st))) "grounded"
    then End else Go PlanResearch.
Proof. apply (reachable_check_edge_by_verdict (sample_env "yes" false) "Q4 revenue?"). apply reach_sample_check. Defined.

(** With [ResearchRefiner.generate_queries] as planner, every web search the
    workflow runs is given between one and three queries: the planner's
    queries, or [[question]] when the planner produced none. *)
Theorem reachable_web_search_queries (env : Env) (llm : string -> Exc string)
    (q : string) (st : AgentState) :
  generate_queries env = Research.generate_queries llm ->
  reach env Retrieve (init_state q) WebSearch st ->
  exists qs, web_search env st = set_web st (web_search_tool env qs) /\
    (1 <= List.length qs <= 3)%nat /\
    (qs = Research.generate_queries llm (question st) \/
     (Research.generate_queries llm (question st) = [] /\ qs = [question st])).
Proof.
  intros Hg H. pose proof (queries_invariant env q _ _ H eq_refl) as Hq.
  rewrite Hg in Hq. unfold web_search. rewrite Hq.
  pose proof (generate_queries_length llm (question st)) as Hl.
  destruct (Research.generate_queries llm (question st)) as [|x xs] eqn:E.
  - exists [question st]. split; [reflexivity|]. split; [simpl; lia | right; split; reflexivity].
  - exists (x :: xs). split; [reflexivity|]. split; [simpl in *; lia | left; reflexivity].
Qed.

Lemma reachable_web_search_queries_witness :
  let st := s_web "yes" false "Q4 revenue?" in
  exists qs, web_search (sample_env "yes" false) st =
               set_web st (web_search_tool (sample_env "yes" false) qs) /\
    (1 <= List.length qs <= 3)%nat /\
    (qs = Research.generate_queries (fun _ => Ok "1. Adobe revenue 2023
2. Adobe revenue Q4") (question st) \/
     (Research.generate_queries (fun _ => Ok "1. Adobe revenue 2023
2. Adobe revenue Q4") (question st) = [] /\ qs = [question st])).
Proof.
  apply (reachable_web_search_queries (sample_env "yes" false)
           (fun _ => Ok "1. Adobe revenue 2023
2. Adobe revenue Q4") "Q4 revenue?").
  - reflexivity.
  - apply reach_sample_web.
Defined.

End GraphInvariants.

Module RefusalFacts.
Import Graph GraphReach GraphInvariants.

(** Collaborators whose generator refuses: the retriever finds one page,
    the relevance judge says yes, the generator answers with the refusal of
    the spec. *)
Definition refusal_env : Env :=
  mkEnv (fun _ => [mkDocument "Revenue was 5B" []]) (fun _ _ => Ok "yes")
        (fun _ _ => "I cannot answer based on the context provided.")
        (fun _ _ => true) (fun q => [q]) (fun _ => []) (fun _ _ => "").

(** The state in which [refusal_env] reaches [check_hallucination]. *)
Definition refusal_check_state (q : string) : AgentState :=
  generate refusal_env (grade_documents refusal_env (retrieve refusal_env (init_state q))).

Lemma reach_refusal_check (q : string) :
  reach refusal_env Retrieve (init_state q) CheckHallucination (refusal_check_state q).
Proof.
  eapply (reach_next _ _ _ Generate
            (grade_documents refusal_env (retrieve refusal_env (init_state q)))); [|reflexivity].
  eapply (reach_next _ _ _ GradeDocuments (retrieve refusal_env (init_state q))); [|reflexivity].
  eapply (reach_next _ _ _ Retrieve (init_state q)); [apply reach_here | reflexivity].
Qed.

(** C6: whenever the workflow started from [{"question": q}] runs
    [check_hallucination] on an answer whose lowercase text contains one of
    the refusal phrases, the evidence is non-empty (the workflow only
    generates from non-empty evidence, so the empty-evidence rule never
    applies there) and the check classifies the answer [hallucinated] by the
    lexical fast path, with zero calls to the judge, and records that
    grade; the fast path answers the same for every non-empty evidence
    list and every judge. *)
Theorem refusal_fast_path :
  forall (env : Env) (q : string) (st : AgentState),
    reach env Retrieve (init_state q) CheckHallucination st ->
    (exists ind, In ind refusal_indicators /\ contains ind (lower (answer st)) = true) ->
    documents st <> [] /\
    check_hallucination (check_groundedness env) (answer st) (documents st)
      = ("hallucinated", 0%nat) /\
    hallucination_grade (check_hallucination_node env st) = Some "hallucinated" /\
    (forall (judge : string -> list Document -> bool) (evidence : list Document),
       evidence <> [] -> check_hallucination judge (answer st) evidence = ("hallucinated", 0%nat)).
Proof.
  intros env q st Hr Hind.
  pose proof (HallucinationFacts.existsb_refusal (answer st) Hind) as Hex.
  assert (Hfast : forall (judge : string -> list Document -> bool) evidence,
             evidence <> [] -> check_hallucination judge (answer st) evidence = ("hallucinated", 0%nat)).
  { intros judge [|d ds] Hne; [contradiction|]. unfold check_hallucination. rewrite Hex. reflexivity. }
  pose proof (evidence_invariant env q CheckHallucination st Hr (or_intror eq_refl)) as Hd.
  split; [exact Hd|]. split; [apply Hfast; exact Hd|]. split; [|exact Hfast].
  unfold check_hallucination_node. cbn [hallucination_grade set_grade].
  rewrite (Hfast _ _ Hd). reflexivity.
Qed.

(** The spec's example: the answer "I cannot answer based on the context
    provided." is graded [hallucinated] with zero judge calls. *)
Lemma refusal_fast_path_witness :
  let st := refusal_check_state "What was total revenue in Q4?" in
  answer st = "I cannot answer based on the context provided." /\
  check_hallucination (check_groundedness refusal_env) (answer st) (documents st)
    = ("hallucinated", 0%nat).
Proof.
  intros st. split; [reflexivity|].
  assert (Hind : exists ind, In ind refusal_indicators /\ contains ind (lower (answer st)) = true).
  { exists "cannot answer". split; [simpl; tauto | reflexivity]. }
  exact (proj1 (proj2 (refusal_fast_path refusal_env "What was total revenue in Q4?" st
                          (reach_refusal_check "What was total revenue in Q4?") Hind))).
Defined.

End RefusalFacts.

Module WebFacts.
Import Retriever WebTool.
Local Open Scope list_scope.

Lemma map_exc_all_ok {A B} (f : A -> Exc B) (l : list A) :
  (forall x, In x l -> exists y, f x = Ok y) ->
  exists ys, map_exc f l = Ok ys /\ List.length ys = List.length l.
Proof.
  induction l as [|x t IH]; intros H; [exists []; split; reflexivity|].
  destruct (H x (or_introl eq_refl)) as [y Hy].
  destruct IH as [ys [Hys Hl]]; [intros z Hz; apply H; right; exact Hz|].
  exists (y :: ys). simpl. rewrite Hy, Hys. split; [reflexivity | simpl; congruence].
Qed.

Lemma map_exc_map {A B C} (f : B -> Exc C) (g : A -> B) (h : A -> C) (l : list A) :
  (forall x, In x l -> f (g x) = Ok (h x)) -> map_exc f (map g l) = Ok (map h l).
Proof.
  induction l as [|x t IH]; intros H; [reflexivity|].
  simpl. rewrite H by (left; reflexivity). rewrite IH by (intros z Hz; apply H; right; exact Hz).
  reflexivity.
Qed.

Definition ok_text (text : string -> nat -> list SDict * option string) (limit : nat) (q : string) : bool :=
  match snd (text q limit) with None => true | Some _ => false end.

Lemma search_loop_spec text limit qs acc :
  search_loop text limit qs acc =
    if forallb (ok_text text limit) qs
    then Some (acc ++ flat_map (fun q => map (tag_result q) (fst (text q limit))) qs)
    else None.
Proof.
  revert acc. induction qs as [|q t IH]; intros acc; simpl.
  - rewrite app_nil_r. reflexivity.
  - unfold ok_text at 1. destruct (text q limit) as [items [e|]]; simpl; [reflexivity|].
    rewrite IH. destruct (forallb _ t); [|reflexivity]. rewrite app_assoc. reflexivity.
Qed.

Lemma dindex_mem (r : SDict) (k d : string) :
  dict_mem r k = true -> dindex r k = Ok (dget r k d).
Proof. unfold dict_mem, dindex, dget. destruct (dict_get r k); [reflexivity | discriminate]. Qed.

Lemma contains_nl_cons (ch : ascii) (t : string) :
  contains nl (String ch t) = false -> ch <> newline /\ contains nl t = false.
Proof.
  unfold nl. cbn [contains prefixb]. intros H. apply orb_false_elim in H as [H1 H2].
  rewrite andb_true_r in H1. split; [|exact H2].
  intros ->. rewrite Ascii.eqb_refl in H1. discriminate.
Qed.

Lemma split_on_nonempty (sep : ascii) (s : string) : split_on sep s <> [].
Proof.
  induction s as [|ch s IH]; simpl; [discriminate|].
  destruct (Ascii.eqb ch sep); [discriminate|]. destruct (split_on sep s); discriminate.
Qed.

Lemma split_single_line (t b : string) :
  contains nl t = false -> split_on newline (t ++ nl ++ b) = t :: split_on newline b.
Proof.
  induction t as [|ch t IH]; intros H.
  - unfold nl. cbn [split_on append]. rewrite Ascii.eqb_refl. reflexivity.
  - apply contains_nl_cons in H as [Hc H]. cbn [split_on append]. rewrite (IH H).
    destruct (Ascii.eqb_spec ch newline); [contradiction | reflexivity].
Qed.

Lemma split_two_parts (t b : string) :
  (2 <= List.length (split_on newline (t ++ nl ++ b)))%nat.
Proof.
  induction t as [|ch t IH].
  - unfold nl. cbn [split_on append]. rewrite Ascii.eqb_refl. cbn [List.length].
    destruct (split_on newline b) eqn:E; [elim (split_on_nonempty _ _ E) | simpl; lia].
  - cbn [split_on append]. destruct (Ascii.eqb ch newline); cbn [List.length]; [lia|].
    destruct (split_on newline (t ++ nl ++ b)); simpl in *; lia.
Qed.

(** Document built by [AgentGraph.web_search] from one result. *)
Definition web_doc_of (r : SDict) : Document :=
  mkDocument (dget r "title" "" ++ nl ++ dget r "body" "")
    [("filename", "Web Search"); ("page", dget r "href" ""); ("type", "web");
     ("query", dget r "query" "Main")].

Lemma web_document_ok (r : SDict) :
  dict_mem r "title" = true -> dict_mem r "href" = true -> dict_mem r "body" = true ->
  web_document r = Ok (web_doc_of r).
Proof.
  intros Ht Hh Hb. unfold web_document.
  rewrite (dindex_mem _ _ "" Ht), (dindex_mem _ _ "" Hh), (dindex_mem _ _ "" Hb). reflexivity.
Qed.

Lemma synth_entry_web_doc (r : SDict) :
  exists title body,
    synth_entry (web_doc_of r) =
      Ok [("title", title); ("body", body); ("href", dget r "href" "");
          ("query", dget r "query" "Main")] /\
    (contains nl (dget r "title" "") = false ->
     title = dget r "title" "" /\ body = hd "" (split_on newline (dget r "body" ""))).
Proof.
  pose proof (split_two_parts (dget r "title" "") (dget r "body" "")) as H2.
  unfold synth_entry, web_doc_of, py_index. cbn [page_content metadata].
  destruct (split_on newline (dget r "title" "" ++ nl ++ dget r "body" "")) as [|x [|y ps]] eqn:E;
    simpl in H2; try lia.
  exists x, y. split; [reflexivity|].
  intros Hn. rewrite split_single_line in E by exact Hn. injection E as <- E.
  rewrite E. split; reflexivity.
Qed.

(** [WebSearchTool.search] is all-or-nothing: without the DuckDuckGo
    package, when opening the client fails, or when the search of any one
    query raises, it returns no results at all; otherwise it returns, query
    by query and in order, every result of every query tagged with that
    query, asking for 3 results per query when there are several queries
    and for [max_results] when there is one. *)
Theorem search_all_or_nothing (client : DDGSClient) (max_results : nat) (query : QueryArg) :
  let qs := match query with QStr q => [q] | QList qs => qs end in
  let limit := if (1 <? List.length qs)%nat then 3%nat else max_results in
  search client max_results query =
    if available client &&
       match enter client with Ok _ => true | Raise _ => false end &&
       forallb (fun q => match snd (text client q limit) with None => true | Some _ => false end) qs
    then flat_map (fun q => map (tag_result q) (fst (text client q limit))) qs
    else [].
Proof.
  intros qs limit. unfold search. fold qs. fold limit.
  destruct (available client); simpl; [|reflexivity].
  destruct (enter client); simpl; [|reflexivity].
  rewrite search_loop_spec. unfold ok_text. destruct (forallb _ qs); reflexivity.
Qed.

(** Every result of [search] carries exactly the keys title, href, body
    and query, the query being one of the searched queries; hence
    [format_results] never raises [KeyError] on the output of [search]. *)
Theorem search_results_formattable (client : DDGSClient) (max_results : nat) (query : QueryArg) :
  let qs := match query with QStr q => [q] | QList qs => qs end in
  (forall r, In r (search client max_results query) ->
     exists title href body q,
       r = [("title", title); ("href", href); ("body", body); ("query", q)] /\ In q qs) /\
  exists s, format_results (search client max_results query) = Ok s.
Proof.
  intros qs.
  assert (Hshape : forall r, In r (search client max_results query) ->
            exists title href body q,
              r = [("title", title); ("href", href); ("body", body); ("query", q)] /\ In q qs).
  { intros r Hr. rewrite search_all_or_nothing in Hr. fold qs in Hr.
    destruct (_ && _ && _); [|contradiction].
    apply in_flat_map in Hr as [q [Hq Hr]]. apply in_map_iff in Hr as [it [<- _]].
    unfold tag_result. do 4 eexists. split; [reflexivity | exact Hq]. }
  split; [exact Hshape|].
  destruct (search client max_results query) as [|r0 rs] eqn:E; [eexists; reflexivity|].
  unfold format_results.
  destruct (map_exc_all_ok (fun ir => format_entry (fst ir) (snd ir)) (enumerate_from 1 (r0 :: rs)))
    as [ys [Hys _]].
  - intros [i r] Hir. apply FusionFacts.in_enumerate in Hir.
    destruct (Hshape r Hir) as [t [h [b [q [-> _]]]]]. eexists. reflexivity.
  - rewrite Hys. eexists. reflexivity.
Qed.

(** The conversion of [AgentGraph.web_search] followed by the list
    comprehension of [synthesize_research] never raises on the output of
    [search] ([KeyError] or [IndexError]): there is one entry per result,
    with the result's URL and query. *)
Theorem search_to_synthesis_no_error (client : DDGSClient) (max_results : nat) (query : QueryArg) :
  exists ds es,
    web_documents (search client max_results query) = Ok ds /\
    synth_entries ds = Ok es /\
    map (fun e => (dget e "href" "", dget e "query" "")) es =
    map (fun r => (dget r "href" "", dget r "query" "")) (search client max_results query).
Proof.
  set (rs := search client max_results query).
  assert (Hk : forall r, In r rs ->
            dict_mem r "title" = true /\ dict_mem r "href" = true /\ dict_mem r "body" = true /\
            dict_mem r "query" = true).
  { intros r Hr. destruct (proj1 (search_results_formattable client max_results query) r Hr)
      as [t [h [b [q [-> _]]]]]. repeat split. }
  exists (map web_doc_of rs).
  assert (Hw : web_documents rs = Ok (map web_doc_of rs)).
  { unfold web_documents. rewrite <- (map_id rs) at 1. apply map_exc_map.
    intros r Hr. destruct (Hk r Hr) as [Ht [Hh [Hb _]]]. apply web_document_ok; assumption. }
  assert (Hs : forall r, In r rs -> exists e, synth_entry (web_doc_of r) = Ok e /\
                 (dget e "href" "", dget e "query" "") = (dget r "href" "", dget r "query" "")).
  { intros r Hr. destruct (synth_entry_web_doc r) as [t [b [E _]]]. eexists. split; [exact E|].
    destruct (Hk r Hr) as [_ [_ [_ Hq]]]. unfold dict_mem in Hq. simpl. unfold dget.
    destruct (dict_get r "query"); [reflexivity | discriminate]. }
  assert (Hsyn : exists es, synth_entries (map web_doc_of rs) = Ok es /\
            map (fun e => (dget e "href" "", dget e "query" "")) es =
            map (fun r => (dget r "href" "", dget r "query" "")) rs).
  { clearbody rs. clear Hk Hw.
    induction rs as [|r rs IH].
    - exists []. split; reflexivity.
    - destruct (Hs r (or_introl eq_refl)) as [e [He Hp]].
      destruct IH as [es [Hes2 Hes3]]; [intros z Hz; apply Hs; right; exact Hz|].
      exists (e :: es). unfold synth_entries in *. cbn [map map_exc]. rewrite He, Hes2.
      split; [reflexivity|]. cbn [map]. rewrite Hp, Hes3. reflexivity. }
  destruct Hsyn as [es [H1 H2]]. exists es. split; [exact Hw | split; assumption].
Qed.

(** For results that have a title, a URL and a snippet, with a title on
    one line, [AgentGraph.synthesize_research] recovers from the documents
    built by [web_search] the title, URL and query of each result, and
    only the first line of its snippet. *)
Theorem web_documents_round_trip (rs : list SDict) :
  (forall r, In r rs ->
     dict_mem r "title" = true /\ dict_mem r "href" = true /\ dict_mem r "body" = true /\
     contains nl (dget r "title" "") = false) ->
  exists ds, web_documents rs = Ok ds /\
    synth_entries ds =
      Ok (map (fun r => [("title", dget r "title" "");
                         ("body", hd "" (split_on newline (dget r "body" "")));
                         ("href", dget r "href" ""); ("query", dget r "query" "Main")]) rs).
Proof.
  intros Hk. exists (map web_doc_of rs). split.
  - unfold web_documents. rewrite <- (map_id rs) at 1. apply map_exc_map.
    intros r Hr. destruct (Hk r Hr) as [Ht [Hh [Hb _]]]. apply web_document_ok; assumption.
  - unfold synth_entries. apply map_exc_map. intros r Hr.
    destruct (synth_entry_web_doc r) as [t [b [E Hn]]]. rewrite E.
    destruct (Hk r Hr) as [_ [_ [_ H1]]]. destruct (Hn H1) as [-> ->]. reflexivity.
Qed.

Lemma web_documents_round_trip_witness :
  exists ds,
    web_documents [[("title", "Adobe FY2023 results"); ("href", "https://example.com/a");
                    ("body", "Revenue 19.41B
Record year")]] = Ok ds /\
    synth_entries ds =
      Ok (map (fun r => [("title", dget r "title" "");
                         ("body", hd "" (split_on newline (dget r "body" "")));
                         ("href", dget r "href" ""); ("query", dget r "query" "Main")])
              [[("title", "Adobe FY2023 results"); ("href", "https://example.com/a");
                ("body", "Revenue 19.41B
Record year")]]).
Proof.
  apply web_documents_round_trip. intros r [<- | []].
  split; [reflexivity | split; [reflexivity | split; vm_compute; reflexivity]].
Defined.

End WebFacts.

Module GroundednessFacts.
Import Graph.

(** [AgentGraph.check_hallucination] with [HallucinationGrader] as judge,
    on an answer with evidence and without a refusal phrase: the answer is
    graded hallucinated exactly when the judge model answers and its reply,
    stripped and lowercased, does not contain "yes"; a judge exception
    counts as grounded. One judge call is made either way. *)
Theorem hallucination_check_with_grader
    (llm : string -> list Document -> Exc string) (answer : string) (docs : list Document) :
  docs <> [] ->
  existsb (fun indicator => contains indicator (lower answer)) refusal_indicators = false ->
  snd (check_hallucination (Groundedness.check_groundedness llm) answer docs) = 1%nat /\
  (fst (check_hallucination (Groundedness.check_groundedness llm) answer docs) = "hallucinated" <->
   exists c, llm answer docs = Ok c /\ contains "yes" (lower (strip c)) = false).
Proof.
  intros Hd Hr. unfold check_hallucination. destruct docs as [|d0 ds]; [congruence|].
  rewrite Hr. unfold Groundedness.check_groundedness.
  destruct (llm answer (d0 :: ds)) as [c|e].
  - destruct (contains "yes" (lower (strip c))) eqn:E; simpl; split; try reflexivity; split.
    + discriminate.
    + intros [c' [Hc' Hn]]. injection Hc' as <-. congruence.
    + intros _. exists c. split; [reflexivity | exact E].
    + reflexivity.
  - simpl. split; [reflexivity|]. split; [discriminate|]. intros [c' [Hc' _]]. discriminate.
Qed.

Lemma hallucination_check_with_grader_witness :
  let llm := fun (_ : string) (_ : list Document) => Ok "  No, the answer is unsupported." in
  snd (check_hallucination (Groundedness.check_groundedness llm) "Revenue was 7B."
         [mkDocument "Revenue was 5B" []]) = 1%nat /\
  (fst (check_hallucination (Groundedness.check_groundedness llm) "Revenue was 7B."
          [mkDocument "Revenue was 5B" []]) = "hallucinated" <->
   exists c, llm "Revenue was 7B." [mkDocument "Revenue was 5B" []] = Ok c /\
             contains "yes" (lower (strip c)) = false).
Proof.
  intros llm. apply hallucination_check_with_grader; [discriminate | vm_compute; reflexivity].
Defined.

End GroundednessFacts.

Module RetrieverExtra.
Import Retriever RetrieverInit DocChoice FusionFacts.
Local Open Scope list_scope.

Lemma bm25_fold_get (i : nat) (l : list Document) (sc : Dict PrimFloat.float) (dm : Dict Document) (key : string) :
  dict_get (snd (fold_left bm25_step (enumerate_from i l) (sc, dm))) key =
  match last_with key l with Some x => Some x | None => dict_get dm key end.
Proof.
  revert i sc dm. induction l as [|d t IH]; intros i sc dm; [reflexivity|].
  cbn [enumerate_from fold_left]. unfold bm25_step at 2. rewrite IH. cbn [last_with].
  destruct (last_with key t); [reflexivity|]. rewrite dict_get_set.
  destruct (String.eqb (page_content d) key); reflexivity.
Qed.

Lemma vector_fold_get (i : nat) (l : list Document) (sc : Dict PrimFloat.float) (dm : Dict Document) (key : string) :
  dict_get (snd (fold_left vector_step (enumerate_from i l) (sc, dm))) key =
  match dict_get dm key with Some x => Some x | None => first_with key l end.
Proof.
  revert i sc dm. induction l as [|d t IH]; intros i sc dm.
  - simpl. destruct (dict_get dm key); reflexivity.
  - cbn [enumerate_from fold_left]. unfold vector_step at 2. rewrite IH. cbn [first_with].
    unfold dict_mem. destruct (dict_get dm (page_content d)) eqn:Ed.
    + destruct (String.eqb_spec (page_content d) key) as [<-|]; [rewrite Ed; reflexivity|].
      destruct (dict_get dm key); reflexivity.
    + rewrite dict_get_set.
      destruct (String.eqb_spec (page_content d) key) as [<-|]; [rewrite Ed; reflexivity|].
      destruct (dict_get dm key); reflexivity.
Qed.

Lemma fuse_get (bd vd : list Document) (key : string) :
  dict_get (snd (fuse bd vd)) key =
  match last_with key bd with Some x => Some x | None => first_with key vd end.
Proof.
  unfold fuse, enumerate.
  destruct (fold_left bm25_step (enumerate_from 0 bd) ([], [])) as [sc dm] eqn:E.
  rewrite vector_fold_get.
  assert (Hdm : dict_get dm key = match last_with key bd with Some x => Some x | None => None end).
  { change dm with (snd (sc, dm)). rewrite <- E, bm25_fold_get. reflexivity. }
  rewrite Hdm. destruct (last_with key bd); reflexivity.
Qed.

Lemma map_exc_index_from (dm : Dict Document) (l : list (string * PrimFloat.float)) (out : list Document) :
  map_exc (fun p => let '(content, _) := p in dict_index dm content) l = Ok out ->
  forall d, In d out -> exists key, dict_get dm key = Some d.
Proof.
  revert out. induction l as [|[key s] l IH]; intros out H d Hd.
  - injection H as <-. contradiction.
  - cbn [map_exc] in H. unfold dict_index at 1 in H.
    destruct (dict_get dm key) as [d0|] eqn:E; [|discriminate].
    destruct (map_exc _ l) as [out'|e] eqn:E'; [|discriminate].
    injection H as <-. destruct Hd as [<-|Hd]; [exists key; exact E|].
    exact (IH out' eq_refl d Hd).
Qed.

(** [DocumentRetriever.__init__] configures the keyword index exactly
    when it is given a non-empty document list and both the BM25 build and
    the vector-store retriever succeed; otherwise [retrieve] is the scored
    vector search of [retrieve_with_scores] with the scores dropped. *)
Theorem init_keyword_index_iff (vs : VectorStore) (documents : list Document)
    (top_k_arg : option Z) (threshold_arg : option Q) (env_top_k : option Z)
    (env_threshold : option Q)
    (bm25_build : list Document -> Z -> Exc (string -> Exc (list Document)))
    (as_retriever : Exc unit) :
  let r := make_retriever vs documents top_k_arg threshold_arg env_top_k env_threshold
                          bm25_build as_retriever in
  (bm25_retriever r <> None <->
   documents <> [] /\
   (exists b, bm25_build documents (init_top_k top_k_arg env_top_k) = Ok b) /\
   as_retriever = Ok tt) /\
  (bm25_retriever r = None ->
   forall query k,
     retrieve r query k =
     match retrieve_with_scores r query k with
     | Ok ps => Ok (map fst ps) | Raise e => Raise e end).
Proof.
  intros r. split.
  - unfold r, make_retriever. cbn [bm25_retriever].
    destruct documents as [|d0 ds].
    + split; [intros H; congruence | intros [H _]; congruence].
    + destruct (bm25_build (d0 :: ds) _) as [b|e].
      * destruct as_retriever as [[]|e].
        -- split; [intros _ | intros _; discriminate].
           split; [discriminate | split; [exists b; reflexivity | reflexivity]].
        -- split; [intros H; congruence | intros [_ [_ H]]; discriminate].
      * split; [intros H; congruence | intros [_ [[b H] _]]; discriminate].
  - intros Hn query k. unfold retrieve, retrieve_with_scores, retrieve_semantic. rewrite Hn.
    destruct (similarity_search_with_score _ _ _); reflexivity.
Qed.

(** [retrieve_with_scores] never consults the keyword index: also on a
    hybrid retriever it returns the floor-filtered vector results, which
    are what [retrieve] returns on the same retriever without the index. *)
Theorem retrieve_with_scores_vector_only (r : DocumentRetriever) (query : string) (k : option Z) :
  match retrieve_with_scores r query k with
  | Ok ps => Ok (map fst ps) | Raise e => Raise e end =
  retrieve (mkRetriever (vectorstore r) (top_k r) (similarity_threshold r) None) query k.
Proof.
  unfold retrieve_with_scores, retrieve, retrieve_semantic, effective_k. simpl.
  destruct (similarity_search_with_score _ _ _); reflexivity.
Qed.



(** Hybrid retrieval with a limit [k > 0] and both searches answering
    returns [min k n] documents, [n] being the number of distinct chunk
    contents over the keyword and vector results. *)
Theorem hybrid_result_count (r : DocumentRetriever) b query (k : Z) (bd vd : list Document) :
  bm25_retriever r = Some b -> (0 < k)%Z ->
  b query = Ok bd -> similarity_search (vectorstore r) query k = Ok vd ->
  exists out, retrieve r query (Some k) = Ok out /\
    List.length out =
    Nat.min (Z.to_nat k) (List.length (nodup string_dec (map page_content (bd ++ vd)))).
Proof.
  intros Hbm Hk Hb Hv. unfold retrieve. rewrite Hbm, RetrieverFacts.effective_k_nonzero by lia.
  destruct (hybrid_core r b query k bd vd Hb Hv) as [out [Hout [Hmap _]]].
  exists out. split; [exact Hout|].
  rewrite <- (length_map page_content out), Hmap, length_map.
  unfold py_take. destruct (Z.leb_spec 0 k); [|lia].
  rewrite length_firstn, fused_length. reflexivity.
Qed.

Lemma hybrid_result_count_witness :
  let bd := [mkDocument "a" []; mkDocument "b" []] in
  let vd := [mkDocument "b" []; mkDocument "c" []] in
  let r := mkRetriever (mkVectorStore (fun _ _ => Ok vd) (fun _ _ => Ok [])) 5 (7 # 10)
                       (Some (fun _ => Ok bd)) in
  exists out, retrieve r "q" (Some 5%Z) = Ok out /\
    List.length out =
    Nat.min (Z.to_nat 5) (List.length (nodup string_dec (map page_content (bd ++ vd)))).
Proof.
  intros bd vd r. apply (hybrid_result_count r (fun _ => Ok bd)); (reflexivity || lia).
Defined.

(** In hybrid retrieval, the document returned for a chunk content is the
    keyword result with that content (the last one if there are several),
    and the first vector result with that content only when the keyword
    search did not return it: its metadata comes from that chunk. *)
Theorem hybrid_chunk_provenance (r : DocumentRetriever) b query (k : option Z)
    (bd vd : list Document) :
  bm25_retriever r = Some b ->
  b query = Ok bd -> similarity_search (vectorstore r) query (effective_k r k) = Ok vd ->
  exists out, retrieve r query k = Ok out /\
    forall d, In d out ->
      Some d = match last_with (page_content d) bd with
               | Some x => Some x
               | None => first_with (page_content d) vd
               end.
Proof.
  intros Hbm Hb Hv. unfold retrieve. rewrite Hbm.
  destruct (hybrid_core r b query (effective_k r k) bd vd Hb Hv) as [out [Hout _]].
  exists out. split; [exact Hout|]. intros d Hd.
  unfold retrieve_hybrid in Hout. rewrite Hb, Hv in Hout.
  pose proof (docmap_inv_fuse bd vd) as [_ Hdm].
  pose proof (fuse_get bd vd (page_content d)) as Hg.
  destruct (fuse bd vd) as [sc dm]. cbn [snd] in Hdm, Hg.
  destruct (map_exc_index_from dm _ out Hout d Hd) as [key Hkey].
  destruct (Hdm key d Hkey) as [Hc _]. rewrite <- Hg, Hc. symmetry. exact Hkey.
Qed.

Lemma hybrid_chunk_provenance_witness :
  let kd := mkDocument "chunk" [("page", "3")] in
  let vd := mkDocument "chunk" [("page", "4")] in
  let r := mkRetriever (mkVectorStore (fun _ _ => Ok [vd]) (fun _ _ => Ok [])) 5 (7 # 10)
                       (Some (fun _ => Ok [kd])) in
  exists out, retrieve r "q" None = Ok out /\
    forall d, In d out ->
      Some d = match last_with (page_content d) [kd] with
               | Some x => Some x
               | None => first_with (page_content d) [vd]
               end.
Proof.
  intros kd vd r. apply (hybrid_chunk_provenance r (fun _ => Ok [kd])); reflexivity.
Defined.

End RetrieverExtra.

Module ContextFacts.
Import Retriever WebTool ContextFormat.

Lemma append_assoc_str (a b c : string) : (a ++ b) ++ c = a ++ (b ++ c).
Proof. induction a as [|ch a IH]; simpl; [reflexivity | rewrite IH; reflexivity]. Qed.

Lemma prefixb_app (p s : string) : prefixb p (p ++ s) = true.
Proof.
  induction p as [|ch p IH]; simpl; [destruct s; reflexivity|].
  rewrite Ascii.eqb_refl, IH. reflexivity.
Qed.

Lemma contains_app_l (p a s : string) : contains p s = true -> contains p (a ++ s) = true.
Proof.
  induction a as [|ch a IH]; simpl; intros H; [exact H|].
  rewrite (IH H). apply orb_true_r.
Qed.

Lemma append_nil_str (a : string) : a ++ "" = a.
Proof. induction a as [|ch a IH]; simpl; [reflexivity | rewrite IH; reflexivity]. Qed.

Lemma prefixb_app_r (p s b : string) : prefixb p s = true -> prefixb p (s ++ b) = true.
Proof.
  revert s. induction p as [|ch p IH]; intros s H; [reflexivity|].
  destruct s as [|ch' s]; [discriminate|]. simpl in *.
  apply andb_prop in H as [H1 H2]. rewrite H1, (IH s H2). reflexivity.
Qed.

Lemma contains_app_r (p s b : string) : contains p s = true -> contains p (s ++ b) = true.
Proof.
  induction s as [|ch s IH]; intros H.
  - destruct p; [destruct b; reflexivity | discriminate].
  - change (String ch s ++ b) with (String ch (s ++ b)).
    change (contains p (String ch s)) with (prefixb p (String ch s) || contains p s) in H.
    change (contains p (String ch (s ++ b))) with (prefixb p (String ch (s ++ b)) || contains p (s ++ b)).
    apply orb_true_iff in H as [H|H].
    + pose proof (prefixb_app_r p (String ch s) b H) as H'.
      change (String ch s ++ b) with (String ch (s ++ b)) in H'. rewrite H'. reflexivity.
    + rewrite (IH H). apply orb_true_r.
Qed.

Lemma contains_self (p b : string) : contains p (p ++ b) = true.
Proof.
  destruct p as [|ch p]; [destruct b; reflexivity|].
  change (contains (String ch p) (String ch p ++ b))
    with (prefixb (String ch p) (String ch (p ++ b)) || contains (String ch p) (p ++ b)).
  change (String ch (p ++ b)) with (String ch p ++ b). rewrite prefixb_app. reflexivity.
Qed.

Lemma join_in (sep x : string) (parts : list string) :
  In x parts -> exists a b, join sep parts = a ++ x ++ b.
Proof.
  induction parts as [|p t IH]; intros H; [contradiction|].
  destruct t as [|p' t'].
  - destruct H as [<-|[]]. exists "", "". simpl. rewrite append_nil_str. reflexivity.
  - change (join sep (p :: p' :: t')) with (p ++ sep ++ join sep (p' :: t')).
    destruct H as [<-|H].
    + exists "", (sep ++ join sep (p' :: t')). reflexivity.
    + destruct (IH H) as [a [b E]]. exists (p ++ sep ++ a), b.
      rewrite E, !append_assoc_str. reflexivity.
Qed.

Lemma in_enumerate_from {A} (i : nat) (l : list A) (x : A) :
  In x l -> exists j, In (j, x) (enumerate_from i l).
Proof.
  revert i. induction l as [|y t IH]; intros i H; [contradiction|].
  destruct H as [<-|H]; [exists i; left; reflexivity|].
  destruct (IH (S i) H) as [j Hj]. exists j. right. exact Hj.
Qed.

(** [DocumentRetriever.format_context] puts the text of every document it
    is given into the context, unchanged. *)
Theorem format_context_keeps_chunks (documents : list Document) (d : Document) :
  In d documents -> contains (page_content d) (format_context documents) = true.
Proof.
  intros Hd. destruct documents as [|d0 ds]; [contradiction|].
  unfold format_context.
  destruct (in_enumerate_from 1 (d0 :: ds) d Hd) as [j Hj].
  destruct (join_in nl (format_part j d)
              (map (fun ip => format_part (fst ip) (snd ip)) (enumerate_from 1 (d0 :: ds))))
    as [a [b E]].
  { apply (in_map (fun ip => format_part (fst ip) (snd ip)) _ (j, d)). exact Hj. }
  rewrite E. apply contains_app_l, contains_app_r. unfold format_part.
  do 8 apply contains_app_l. apply contains_self.
Qed.

Lemma format_context_keeps_chunks_witness :
  contains "Revenue was 5B" (format_context [mkDocument "Intro" [("source", "10-K.pdf")];
                                             mkDocument "Revenue was 5B" [("page", "7")]]) = true.
Proof.
  apply (format_context_keeps_chunks _ (mkDocument "Revenue was 5B" [("page", "7")])).
  right. left. reflexivity.
Defined.

End ContextFacts.
